(** * py2deb: metadata translation and dependency mapping

    A shallow embedding of the conversion logic of [py2deb/package.py]
    (class [PackageToConvert]) and of the control-file patching of
    [py2deb/backends/stdeb_backend.py], with the properties the
    specification states about them.

    Python values are modelled as follows: [str] as [string], a [list] or
    [tuple] as [list], a [set] as [gset], a [dict] as [gmap], [None]-able
    attributes as [option], and a call that may raise as a value of
    [outcome]. *)

From stdpp Require Import gmap strings list sorting.
From Stdlib Require Import Strings.String Strings.Ascii.
From Stdlib Require OrdersEx.

Open Scope string_scope.
#[local] Set Warnings "-clear-no-such-hyp".

(** ** Python run-time conventions *)

Module Py.

(** The exceptions raised by the modelled code. The formatted message of
    an exception is kept as its arguments. *)
Inductive exception : Type :=
  | ConversionSpecifierNotSupported (constraint python_name : string)
  | MultipleEggInfoDirectories (project_name version : string)
      (matches : list string)
  | NoSectionError (section : string)
  | IOError (filename : string)
  | IndexError
  | BackendFailed (package_name : string).

(** The result of a call: a returned value or a raised exception. *)
Inductive outcome (A : Type) : Type :=
  | Returned (a : A)
  | Raised (e : exception).
Arguments Returned {A} a.
Arguments Raised {A} e.

#[export] Instance outcome_ret : MRet outcome := @Returned.
#[export] Instance outcome_bind : MBind outcome := fun _ _ k m =>
  match m with
  | Returned a => k a
  | Raised e => Raised e
  end.

Definition raises {A} (m : outcome A) : Prop := ∃ e, m = Raised e.

(** A [for] loop whose body updates the loop state or raises. *)
Fixpoint for_each {A S} (body : S → A → outcome S) (l : list A) (s : S)
    : outcome S :=
  match l with
  | [] => Returned s
  | x :: l' => s' ← body s x; for_each body l' s'
  end.

(** [l[i]]: indexing past the end raises. *)
Definition getitem {A} (l : list A) (i : nat) : outcome A :=
  match l !! i with
  | Some x => Returned x
  | None => Raised IndexError
  end.

(** Truth value of a string attribute that may be [None]. *)
Definition truthy (o : option string) : bool :=
  match o with
  | Some s => negb (s =? "")
  | None => false
  end.

(** [str.split(sep)] for a one-character separator. *)
Fixpoint split (sep : ascii) (s : string) : list string :=
  match s with
  | EmptyString => [""]
  | String c s' =>
      if Ascii.eqb c sep then "" :: split sep s'
      else match split sep s' with
           | h :: t => String c h :: t
           | [] => [String c ""]
           end
  end.

(** [str.strip(chars)]: drop the leading and the trailing characters that
    occur in [chars]. *)
Fixpoint mem_char (c : ascii) (chars : string) : bool :=
  match chars with
  | EmptyString => false
  | String d chars' => Ascii.eqb c d || mem_char c chars'
  end.

Fixpoint lstrip (chars s : string) : string :=
  match s with
  | EmptyString => EmptyString
  | String c s' => if mem_char c chars then lstrip chars s' else s
  end.

Fixpoint rstrip (chars s : string) : string :=
  match s with
  | EmptyString => EmptyString
  | String c s' =>
      match rstrip chars s' with
      | EmptyString => if mem_char c chars then EmptyString else String c EmptyString
      | r => String c r
      end
  end.

Definition strip (chars s : string) : string := rstrip chars (lstrip chars s).

(** [str.endswith(suffix)]. *)
Definition endswith (s suffix : string) : bool :=
  let n := String.length s in
  let m := String.length suffix in
  (m <=? n)%nat && (substring (n - m) m s =? suffix).

(** [str.lower()] on ASCII letters. *)
Definition lower_char (c : ascii) : ascii :=
  let n := nat_of_ascii c in
  if (65 <=? n)%nat && (n <=? 90)%nat then ascii_of_nat (n + 32) else c.

Fixpoint lower (s : string) : string :=
  match s with
  | EmptyString => EmptyString
  | String c s' => String (lower_char c) (lower s')
  end.

(** The order of [sorted()] on strings: lexicographic on character codes. *)
Definition str_le (s t : string) : Prop := String.leb s t = true.

#[export] Instance str_le_dec s t : Decision (str_le s t).
Proof. unfold str_le. apply _. Defined.

(** [sorted(xs)] on strings. *)
Definition sorted (l : list string) : list string := merge_sort str_le l.

(** [sorted(xs, key=len)] on tuples. *)
Definition len_le {A} (s t : list A) : Prop :=
  (List.length s ≤ List.length t)%nat.

#[export] Instance len_le_dec {A} (s t : list A) : Decision (len_le s t).
Proof. unfold len_le. apply _. Defined.

Definition sorted_by_len {A} (l : list (list A)) : list (list A) :=
  merge_sort len_le l.

End Py.

Import Py.

(** More of [str]: the methods that the readers and writers of files use. *)
Module PyStr.

(** A line feed, and [string.whitespace]: the characters that [str.strip()]
    removes from a byte string. *)
Definition LF : string := String "010" "".

Definition string_whitespace : string :=
  String "009" (String "010" (String "011" (String "012" (String "013" " ")))).

(** [s.strip()]. What counts as white space depends on the interpreter and
    on the type of the string: [string.whitespace] for a byte string, every
    character with [isspace()] for text. [whitespace] holds the characters
    that are removed. *)
Definition strip_ws (whitespace s : string) : string := strip whitespace s.

(** [s.partition(sep)] for a one-character separator: the text before the
    first separator, the separator and the text after it, or
    [(s, '', '')] without a separator. *)
Fixpoint partition (sep : ascii) (s : string) : string * string * string :=
  match s with
  | EmptyString => ("", "", "")
  | String c s' =>
      if Ascii.eqb c sep then ("", String sep "", s')
      else let '(before, found, after) := partition sep s' in
           (String c before, found, after)
  end.

(** [sep.join(l)]. *)
Fixpoint join (sep : string) (l : list string) : string :=
  match l with
  | [] => ""
  | [x] => x
  | x :: l' => x +:+ sep +:+ join sep l'
  end.

(** Put a character in front of the first piece. *)
Definition cons_head (c : ascii) (l : list string) : list string :=
  match l with
  | h :: t => String c h :: t
  | [] => [String c ""]
  end.

(** [s.split(sep)] for a non-empty separator: the occurrences are found
    from left to right and do not overlap; [skip] counts the characters of
    an occurrence that are still to be passed over. *)
Fixpoint split_skip (sep : string) (skip : nat) (s : string) : list string :=
  match s with
  | EmptyString => [""]
  | String c s' =>
      match skip with
      | S k => split_skip sep k s'
      | O =>
          if prefix sep s
          then "" :: split_skip sep (String.length sep - 1) s'
          else cons_head c (split_skip sep 0 s')
      end
  end.

Definition split_str (sep s : string) : list string := split_skip sep 0 s.

(** [s[n:]]. *)
Fixpoint drop_chars (n : nat) (s : string) : string :=
  match n, s with
  | S k, String _ s' => drop_chars k s'
  | _, _ => s
  end.

End PyStr.

Import PyStr.

(** ** Library interfaces used by the converter *)

(** [os.path.join] on POSIX path names. *)
Module os_path.

Definition join2 (a b : string) : string :=
  if prefix "/" b then b
  else if (a =? "") || endswith a "/" then a +:+ b
  else a +:+ "/" +:+ b.

Definition join (a : string) (rest : list string) : string :=
  foldl join2 a rest.

End os_path.

(** [pkg_resources.Requirement]: a project name, the requested extras and
    the [(operator, version)] pairs of its version specifiers. *)
Module pkg_resources.

Record Requirement : Type := {
  project_name : string;
  extras : list string;
  specs : list (string * string)
}.

End pkg_resources.

(** [pip_accel.req.Requirement]: the unpacked source distribution that is
    being converted. *)
Module pip_accel.

Record Requirement : Type := {
  name : string;
  version : string;
  project_name : string;
  source_directory : string
}.

End pip_accel.

(** [pkginfo.UnpackedSDist]: the core metadata read from [PKG-INFO]. An
    absent field is [None]. *)
Module pkginfo.

Record UnpackedSDist : Type := {
  maintainer : option string;
  maintainer_email : option string;
  author : option string;
  author_email : option string
}.

End pkginfo.

(** [configparser.RawConfigParser] after [read()]: the [DEFAULT] section
    is kept apart from the named sections, which are in file order. *)
Module configparser.

Record RawConfigParser : Type := {
  _defaults : gmap string string;
  _sections : list (string * gmap string string)
}.

Definition sections (parser : RawConfigParser) : list string :=
  (_sections parser).*1.

(** [has_section()] does not acknowledge the [DEFAULT] section. *)
Definition has_section (parser : RawConfigParser) (section : string) : bool :=
  bool_decide (section ∈ sections parser).

Fixpoint lookup_section (l : list (string * gmap string string))
    (section : string) : option (gmap string string) :=
  match l with
  | [] => None
  | (s, d) :: l' => if s =? section then Some d else lookup_section l' section
  end.

(** [dict(parser.items(section))]: the options of the section on top of
    the defaults. *)
Definition items (parser : RawConfigParser) (section : string)
    : outcome (gmap string string) :=
  match lookup_section (_sections parser) section with
  | Some d2 => Returned (d2 ∪ _defaults parser)
  | None =>
      if section =? "DEFAULT" then Returned (_defaults parser)
      else Raised (NoSectionError section)
  end.

(** The options that [items] returns for a section of the file. *)
Definition section_overrides (parser : RawConfigParser) (section : string)
    : gmap string string :=
  default ∅ (lookup_section (_sections parser) section) ∪ _defaults parser.

End configparser.

(** ** [py2deb/package.py] *)

Module package.

(** The attributes of a [PackageToConvert] that come from outside the
    class: the requirement being converted, the metadata that [pkginfo]
    loads, the requirements that [pkg_resources] reports
    ([python_requirements]) and the non-empty lines of
    [namespace_packages.txt] ([namespace_packages]). *)
Record PackageToConvert : Type := {
  requirement : pip_accel.Requirement;
  metadata : pkginfo.UnpackedSDist;
  python_requirements : list pkg_resources.Requirement;
  namespace_packages : list string
}.

Definition python_name (self : PackageToConvert) : string :=
  pip_accel.name (requirement self).

Definition python_version (self : PackageToConvert) : string :=
  pip_accel.version (requirement self).

(** The [PackageConverter] a package refers back to. Its methods live in
    [py2deb/converter.py]; here they are fields. *)
Record PackageConverter : Type := {
  transform_name : string → list string → string;
  transform_version : PackageToConvert → string → string → string;
  debian_architecture : string;
  install_prefix : string
}.

(** *** [debian_maintainer] *)

(** [%s] formatting of an attribute that may be [None]. *)
Definition str_of (o : option string) : string := default "None" o.

(** [PackageToConvert.debian_maintainer]. The formatting branch is only
    reached when both values are non-empty strings. *)
Definition debian_maintainer (self : PackageToConvert) : string :=
  let maintainer := pkginfo.maintainer (metadata self) in
  let maintainer_email := pkginfo.maintainer_email (metadata self) in
  let '(maintainer, maintainer_email) :=
    if negb (truthy maintainer)
    then (pkginfo.author (metadata self), pkginfo.author_email (metadata self))
    else (maintainer, maintainer_email) in
  if truthy maintainer && truthy maintainer_email then
    str_of maintainer +:+ " <" +:+ strip "<>" (str_of maintainer_email) +:+ ">"
  else if truthy maintainer then str_of maintainer
  else "Unknown".

(** *** [namespaces] *)

(** The body of the loop over the components of one dotted name; the loop
    state is [dotted_name] and the set [namespaces]. *)
Definition add_component (st : list string * gset (list string))
    (component : string) : list string * gset (list string) :=
  let dotted_name := (st.1 ++ [component])%list in
  (dotted_name, {[ dotted_name ]} ∪ st.2).

(** The body of the loop over [self.namespace_packages]. *)
Definition add_namespace_package (namespaces : gset (list string))
    (namespace_package : string) : gset (list string) :=
  (foldl add_component ([], namespaces) (split "." namespace_package)).2.

Definition namespaces_set (self : PackageToConvert) : gset (list string) :=
  foldl add_namespace_package ∅ (namespace_packages self).

(** [PackageToConvert.namespaces]. The order in which Python iterates over
    the set is not specified; [elements] stands for it. *)
Definition namespaces (self : PackageToConvert) : list (list string) :=
  sorted_by_len (elements (namespaces_set self)).

(** *** [debian_dependencies] *)

Section dependency_mapper.

Variable converter : PackageConverter.
Variable self : PackageToConvert.

(** The body of the loop over [requirement.specs]. *)
Definition add_constraint (requirement : pkg_resources.Requirement)
    (debian_package_name : string) (dependencies : gset string)
    (spec : string * string) : outcome (gset string) :=
  let '(constraint, version) := spec in
  let version :=
    transform_version converter self
      (pkg_resources.project_name requirement) version in
  if version =? "dev" then
    Returned ({[ debian_package_name ]} ∪ dependencies)
  else if constraint =? "==" then
    Returned ({[ debian_package_name +:+ " (= " +:+ version +:+ ")" ]}
                ∪ dependencies)
  else if constraint =? "!=" then
    Returned ({[ debian_package_name +:+ " (<< " +:+ version +:+ ") | "
                   +:+ debian_package_name +:+ " (>> " +:+ version +:+ ")" ]}
                ∪ dependencies)
  else if constraint =? "<" then
    Returned ({[ debian_package_name +:+ " (<< " +:+ version +:+ ")" ]}
                ∪ dependencies)
  else if constraint =? ">" then
    Returned ({[ debian_package_name +:+ " (>> " +:+ version +:+ ")" ]}
                ∪ dependencies)
  else if (constraint =? "<=") || (constraint =? ">=") then
    Returned ({[ debian_package_name +:+ " (" +:+ constraint +:+ " "
                   +:+ version +:+ ")" ]}
                ∪ dependencies)
  else
    Raised (ConversionSpecifierNotSupported constraint (python_name self)).

(** The body of the loop over [self.python_requirements]. *)
Definition add_requirement (dependencies : gset string)
    (requirement : pkg_resources.Requirement) : outcome (gset string) :=
  let debian_package_name :=
    transform_name converter (pkg_resources.project_name requirement)
      (pkg_resources.extras requirement) in
  match pkg_resources.specs requirement with
  | _ :: _ =>
      for_each (add_constraint requirement debian_package_name)
        (pkg_resources.specs requirement) dependencies
  | [] => Returned ({[ debian_package_name ]} ∪ dependencies)
  end.

(** [PackageToConvert.debian_dependencies]. *)
Definition debian_dependencies : outcome (list string) :=
  dependencies ← for_each add_requirement (python_requirements self) ∅;
  Returned (sorted (elements dependencies)).

End dependency_mapper.

(** *** [find_shared_object_files] and [determine_package_architecture] *)

(** [PackageToConvert.find_shared_object_files] over the triples
    [(root, dirs, files)] that [os.walk] yields. Running [strip] on each
    file found is left to the external tool. *)
Definition find_shared_object_files
    (walk : list (string * list string * list string)) : list string :=
  foldl (fun shared_object_files '(root, dirs, files) =>
           foldl (fun shared_object_files filename =>
                    if endswith filename ".so"
                    then (shared_object_files ++ [os_path.join root [filename]])%list
                    else shared_object_files)
                 shared_object_files files)
        [] walk.

(** [PackageToConvert.determine_package_architecture]; the argument is the
    list of shared object files, tested for emptiness. *)
Definition determine_package_architecture (converter : PackageConverter)
    (has_shared_object_files : list string) : string :=
  match has_shared_object_files with
  | _ :: _ => debian_architecture converter
  | [] => "all"
  end.

(** The architecture that [convert] computes for a build directory. *)
Definition package_architecture (converter : PackageConverter)
    (walk : list (string * list string * list string)) : string :=
  let shared_object_files := find_shared_object_files walk in
  determine_package_architecture converter shared_object_files.

(** *** Functions that read the unpacked source distribution *)

Section source_distribution.

(** The file system, with [glob.glob], [os.path.isfile] and the parsing
    of an INI file by [RawConfigParser.read]. *)
Variable FileSystem : Type.
Variable glob : FileSystem → string → list string.
Variable isfile : FileSystem → string → bool.
Variable read_config :
  FileSystem → string → outcome configparser.RawConfigParser.

(** [PackageToConvert.find_egg_info_file]: the outcome and the file
    system afterwards. *)
Definition find_egg_info_file (self : PackageToConvert) (pattern : string)
    (fs : FileSystem) : outcome (option string) * FileSystem :=
  let full_pattern :=
    os_path.join (pip_accel.source_directory (requirement self))
      ["pip-egg-info"; "*.egg-info"; pattern] in
  let matches := glob fs full_pattern in
  if (1 <? List.length matches)%nat then
    (Raised (MultipleEggInfoDirectories
               (pip_accel.project_name (requirement self))
               (pip_accel.version (requirement self)) matches), fs)
  else
    match matches with
    | m :: _ => (Returned (Some m), fs)
    | [] => (Returned None, fs)
    end.

(** The control fields ([debian.deb822.Deb822]) and the functions of
    [deb_pkg_tools.control] and [py2deb.utils] that work on them. *)
Variable Deb822 : Type.
Variable merge_control_fields : Deb822 → gmap string string → Deb822.
Variable package_names_match : string → string → bool.

(** The body of the loop over [section_names]. *)
Definition apply_section (parser : configparser.RawConfigParser)
    (control_fields : Deb822) (section_name : string) : outcome Deb822 :=
  if configparser.has_section parser section_name then
    overrides ← configparser.items parser section_name;
    Returned (merge_control_fields control_fields overrides)
  else Returned control_fields.

(** [PackageToConvert.load_control_field_overrides]. *)
Definition load_control_field_overrides (self : PackageToConvert)
    (control_fields : Deb822) (fs : FileSystem) : outcome Deb822 :=
  let py2deb_cfg :=
    os_path.join (pip_accel.source_directory (requirement self))
      ["stdeb.cfg"] in
  if negb (isfile fs py2deb_cfg) then Returned control_fields
  else
    parser ← read_config fs py2deb_cfg;
    let section_names :=
      ("DEFAULT" ::
         filter (λ section_name,
                   package_names_match section_name (python_name self) = true)
                (configparser.sections parser))%list in
    for_each (apply_section parser) section_names control_fields.

End source_distribution.

(** *** [has_custom_install_prefix] *)

Definition KNOWN_INSTALL_PREFIXES : list string := ["/usr"; "/usr/local"].

Definition has_custom_install_prefix (converter : PackageConverter) : bool :=
  negb (bool_decide (install_prefix converter ∈ KNOWN_INSTALL_PREFIXES)).

(** *** [vcs_revision], [namespace_packages] and [python_requirements] *)

Section readers.

(** The file system, with [glob.glob], [os.path.isfile] and the lines of
    a text file, each with its line terminator, as iterating over the
    open file gives them; opening the file may raise. *)
Variable FileSystem : Type.
Variable glob : FileSystem → string → list string.
Variable isfile : FileSystem → string → bool.
Variable readlines : FileSystem → string → outcome (list string).

(** What the interpreter that runs the code makes of [str.strip()]
    without an argument, given by the characters it removes, and of
    [str.lower()]. *)
Variable whitespace : string.
Variable str_lower : string → string.

(** The loop over the lines of [.hg_archival.txt]. *)
Fixpoint find_node (lines : list string) : option string :=
  match lines with
  | [] => None
  | line :: lines' =>
      let '(name, _, value) := partition ":" line in
      if strip_ws whitespace name =? "node"
      then Some (strip_ws whitespace value)
      else find_node lines'
  end.

(** [PackageToConvert.vcs_revision]. *)
Definition vcs_revision (self : PackageToConvert) (fs : FileSystem)
    : outcome (option string) :=
  let filename :=
    os_path.join (pip_accel.source_directory (requirement self))
      [".hg_archival.txt"] in
  if isfile fs filename then
    lines ← readlines fs filename;
    Returned (find_node lines)
  else Returned None.

(** The body of the loop over the lines of [namespace_packages.txt]. *)
Definition add_dotted_name (dotted_names : list string) (line : string)
    : list string :=
  let line := strip_ws whitespace line in
  if negb (line =? "") then (dotted_names ++ [line])%list else dotted_names.

(** The property [PackageToConvert.namespace_packages], which computes the
    attribute of that name. *)
Definition load_namespace_packages (self : PackageToConvert) (fs : FileSystem)
    : outcome (list string) :=
  namespace_packages_file ←
    (find_egg_info_file FileSystem glob self "namespace_packages.txt" fs).1;
  if truthy namespace_packages_file then
    match namespace_packages_file with
    | Some filename =>
        lines ← readlines fs filename;
        Returned (foldl add_dotted_name [] lines)
    | None => Returned []
    end
  else Returned [].

(** [pkg_resources.Requirement.parse], and the requirements that
    [get_dist().requires(extras)] reports; both may raise. *)
Variable parse : string → outcome pkg_resources.Requirement.
Variable requires : list string → outcome (list pkg_resources.Requirement).

(** The body of the loop over the lines of [requires.txt]; the loop state
    is [current_extra] and [requirements]. *)
Definition add_requires_line (selected_extras : gset string)
    (st : option string * list pkg_resources.Requirement) (line : string)
    : outcome (option string * list pkg_resources.Requirement) :=
  let '(current_extra, requirements) := st in
  let line := strip_ws whitespace line in
  if prefix "[" line then
    Returned (Some (str_lower (strip "[]" line)), requirements)
  else if negb (line =? "")
          && match current_extra with
             | None => true
             | Some extra => bool_decide (extra ∈ selected_extras)
             end
  then
    parsed ← parse line;
    Returned (current_extra, (requirements ++ [parsed])%list)
  else Returned (current_extra, requirements).

(** The property [PackageToConvert.python_requirements], which computes
    the attribute of that name; [extras] are the extras of the pip
    requirement. Any exception of the first attempt leads to the parsing
    of [requires.txt]. *)
Definition load_python_requirements (self : PackageToConvert)
    (extras : list string) (fs : FileSystem)
    : outcome (list pkg_resources.Requirement) :=
  match requires extras with
  | Returned requirements => Returned requirements
  | Raised _ =>
      filename ← (find_egg_info_file FileSystem glob self "requires.txt" fs).1;
      if truthy filename then
        match filename with
        | Some filename =>
            let selected_extras : gset string :=
              list_to_set (str_lower <$> extras) in
            lines ← readlines fs filename;
            st ← for_each (add_requires_line selected_extras) lines (None, []);
            Returned st.2
        | None => Returned []
        end
      else Returned []
  end.

(** The package once its [python_requirements] have been computed. *)
Definition with_python_requirements (self : PackageToConvert)
    (requirements : list pkg_resources.Requirement) : PackageToConvert := {|
  requirement := requirement self;
  metadata := metadata self;
  python_requirements := requirements;
  namespace_packages := namespace_packages self
|}.

(** [PackageToConvert.debian_dependencies] of a package whose
    [python_requirements] have not been computed yet: the property is
    evaluated when the loop over the requirements starts, and an exception
    of it ends the mapper. *)
Definition debian_dependencies_of_source (converter : PackageConverter)
    (self : PackageToConvert) (extras : list string) (fs : FileSystem)
    : outcome (list string) :=
  requirements ← load_python_requirements self extras fs;
  debian_dependencies converter (with_python_requirements self requirements).

End readers.

(** *** [find_system_dependencies] *)

Section system_dependencies.

(** [execute] with [capture=True], run on the command in the fake source
    package: the captured output, or the exception of a failed command;
    and the characters that [str.strip()] removes from that output. *)
Variable execute : list string → outcome string.
Variable whitespace : string.

(** [PackageToConvert.find_system_dependencies]. The temporary directory
    with its empty [debian/control] is left to [execute]. *)
Definition find_system_dependencies (shared_object_files : list string)
    : outcome (list string) :=
  let command :=
    (["dpkg-shlibdeps"; "-O"; "--warnings=0"] ++ shared_object_files)%list in
  output ← execute command;
  let expected_prefix := "shlibs:Depends=" in
  if negb (prefix expected_prefix output) then Returned []
  else
    let output := drop_chars (String.length expected_prefix) output in
    Returned (sorted (strip_ws whitespace <$> split "," output)).

End system_dependencies.

(** *** [generate_maintainer_script] *)

(** The permission bits [0o755]. *)
Definition mode_755 : nat := 7 * 64 + 5 * 8 + 5.

Section maintainer_scripts.

(** The values of the keyword arguments with their [repr], and the path
    name of [py2deb/hooks.py]. *)
Variable Value : Type.
Variable repr : Value → string.
Variable hooks_script : string.

(** [PackageToConvert.generate_maintainer_script]: the outcome and the
    file system afterwards. A file is its text and its permission bits;
    [arguments] are the items of the dictionary in the order of
    iteration. *)
Definition generate_maintainer_script
    (filename python_executable function : string)
    (arguments : list (string * Value)) (fs : gmap string (string * nat))
    : outcome unit * gmap string (string * nat) :=
  match fs !! hooks_script with
  | None => (Raised (IOError hooks_script), fs)
  | Some (contents, _) =>
      let blocks := split_str (LF +:+ LF) contents in
      let blocks := ("#!" +:+ python_executable) :: blocks in
      let encoded_arguments :=
        join ", " ((λ '(k, v), k +:+ "=" +:+ repr v) <$> arguments) in
      let blocks :=
        (blocks ++ [function +:+ "(" +:+ encoded_arguments +:+ ")"])%list in
      (Returned (),
       <[ filename := (join (LF +:+ LF) blocks +:+ LF, mode_755) ]> fs)
  end.

End maintainer_scripts.

End package.

(** ** [py2deb/backends/stdeb_backend.py] *)

Module stdeb_backend.

(** The attributes of the package object that [patch_control] reads. *)
Record Package : Type := {
  name : string;
  directory : string;
  debian_name : string;
  debian_dependencies : list string
}.

(** [', '.join(xs)]. *)
Fixpoint join_comma (l : list string) : string :=
  match l with
  | [] => ""
  | [x] => x
  | x :: l' => x +:+ ", " +:+ join_comma l'
  end.

Section patch.

(** A control paragraph ([Deb822]) and the functions of
    [deb_pkg_tools.control] and [py2deb.util] that work on it. *)
Variable Deb822 : Type.
Variable merge_control_fields : Deb822 → gmap string string → Deb822.
Variable patch_control_file : Package → Deb822 → Deb822.
Variable get_tagged_description : string.

(** The block that rewrites the control file: the paragraphs written. *)
Definition patched_paragraphs (package : Package)
    (paragraphs : list Deb822) : outcome (list Deb822) :=
  let overrides : gmap string string :=
    {[ "Package" := debian_name package;
       "Description" := get_tagged_description;
       "Depends" := join_comma (debian_dependencies package) ]} in
  p1 ← getitem paragraphs 1;
  let paragraphs := <[ 1%nat := merge_control_fields p1 overrides ]> paragraphs in
  p1 ← getitem paragraphs 1;
  let paragraphs := <[ 1%nat := patch_control_file package p1 ]> paragraphs in
  p0 ← getitem paragraphs 0;
  p1 ← getitem paragraphs 1;
  Returned [p0; p1].

(** [patch_control]: the outcome and the file system afterwards. The
    file system holds the files of the package directory; a control file
    is kept as the paragraphs that [Deb822.iter_paragraphs] reads from it
    and that [dump] writes to it. The file is opened for writing, and so
    emptied, only after the check of the number of paragraphs. *)
Definition patch_control (package : Package) (fs : gmap string (list Deb822))
    : outcome unit * gmap string (list Deb822) :=
  let control_file :=
    os_path.join (directory package) ["debian"; "control"] in
  match fs !! control_file with
  | None => (Raised (IOError control_file), fs)
  | Some paragraphs =>
      if negb (List.length paragraphs =? 2)%nat then
        (Raised (BackendFailed (name package)), fs)
      else
        match patched_paragraphs package paragraphs with
        | Returned written =>
            (Returned (), <[ control_file := written ]> fs)
        | Raised e => (Raised e, <[ control_file := [] ]> fs)
        end
  end.

End patch.

End stdeb_backend.

(** ** The specification's reading of the dependency mapper *)

Module from_spec.

(** The table of section 4.2: the Debian relationship for each Python
    operator. *)
Definition relationship_table (name version : string)
    : list (string * string) :=
  [ ("==", name +:+ " (= " +:+ version +:+ ")");
    ("!=", name +:+ " (<< " +:+ version +:+ ") | "
             +:+ name +:+ " (>> " +:+ version +:+ ")");
    ("<",  name +:+ " (<< " +:+ version +:+ ")");
    (">",  name +:+ " (>> " +:+ version +:+ ")");
    ("<=", name +:+ " (<= " +:+ version +:+ ")");
    (">=", name +:+ " (>= " +:+ version +:+ ")") ].

Fixpoint assoc (key : string) (table : list (string * string))
    : option string :=
  match table with
  | [] => None
  | (k, v) :: table' => if k =? key then Some v else assoc key table'
  end.

(** The row of an operator, [None] for "anything else". *)
Definition relationship (operator name version : string) : option string :=
  assoc operator (relationship_table name version).

(** Modelled from the spec: [py2deb.utils.package_names_match], which is
    not part of the sources at hand; names match when they are equal up to
    case and up to the difference between underscore and dash. *)
Fixpoint normalize_package_name (s : string) : string :=
  match s with
  | EmptyString => EmptyString
  | String c s' =>
      String (if Ascii.eqb c "_" then "-"%char else lower_char c)
             (normalize_package_name s')
  end.

Definition package_names_match (a b : string) : bool :=
  normalize_package_name a =? normalize_package_name b.

End from_spec.

(** ** What the dependency mapper adds for a constraint and a requirement *)

Section entries.

Variable converter : package.PackageConverter.
Variable self : package.PackageToConvert.

Definition debian_package_name (r : pkg_resources.Requirement) : string :=
  package.transform_name converter (pkg_resources.project_name r)
    (pkg_resources.extras r).

Definition debian_version (r : pkg_resources.Requirement)
    (version : string) : string :=
  package.transform_version converter self
    (pkg_resources.project_name r) version.

(** The entry of one constraint: the bare name for the [dev] marker, the
    row of the table otherwise. *)
Definition constraint_entry (r : pkg_resources.Requirement)
    (spec : string * string) : option string :=
  if debian_version r spec.2 =? "dev" then Some (debian_package_name r)
  else from_spec.relationship spec.1 (debian_package_name r)
         (debian_version r spec.2).

Definition requirement_entries (r : pkg_resources.Requirement)
    : list string :=
  match pkg_resources.specs r with
  | [] => [debian_package_name r]
  | l => l ≫= (λ spec, option_list (constraint_entry r spec))
  end.

Definition dependency_entries : list string :=
  package.python_requirements self ≫= requirement_entries.

(** The entry of a pinned version: [name (= normalizedVersion)]. *)
Definition pin (r : pkg_resources.Requirement) (version : string) : string :=
  debian_package_name r +:+ " (= " +:+ debian_version r version +:+ ")".

(** The distinct project names among the requirements. *)
Definition project_names : list string :=
  remove_dups (pkg_resources.project_name <$> package.python_requirements self).

(** Every requirement has a specifier, every specifier uses [==], and no
    normalized version is the [dev] marker. *)
Definition pinned_only : Prop :=
  ∀ r, r ∈ package.python_requirements self →
    pkg_resources.specs r ≠ [] ∧
    ∀ operator version, (operator, version) ∈ pkg_resources.specs r →
      operator = "==" ∧ debian_version r version ≠ "dev".

(** Two pins give the same entry exactly when they are pins of the same
    project. *)
Definition one_pin_per_project : Prop :=
  ∀ r1 r2 v1 v2,
    r1 ∈ package.python_requirements self →
    r2 ∈ package.python_requirements self →
    ("==", v1) ∈ pkg_resources.specs r1 →
    ("==", v2) ∈ pkg_resources.specs r2 →
    (pin r1 v1 = pin r2 v2 ↔
     pkg_resources.project_name r1 = pkg_resources.project_name r2).

End entries.

(** ** Sample inputs *)

Module examples.

(** A converter in the style of [py2deb.converter]: names get a prefix,
    lower case and one suffix per extra; versions are kept. *)
Definition converter : package.PackageConverter := {|
  package.transform_name := λ python_name extras,
    foldl (λ acc extra, acc +:+ "-" +:+ lower extra)
          ("python-" +:+ lower python_name) extras;
  package.transform_version := λ _ _ version, version;
  package.debian_architecture := "amd64";
  package.install_prefix := "/usr"
|}.

Definition sdist (name version : string) : pip_accel.Requirement := {|
  pip_accel.name := name;
  pip_accel.version := version;
  pip_accel.project_name := name;
  pip_accel.source_directory := "/tmp/pip-build/" +:+ name
|}.

Definition no_metadata : pkginfo.UnpackedSDist := {|
  pkginfo.maintainer := None;
  pkginfo.maintainer_email := None;
  pkginfo.author := None;
  pkginfo.author_email := None
|}.

Definition requires (project_name : string) (specs : list (string * string))
    : pkg_resources.Requirement := {|
  pkg_resources.project_name := project_name;
  pkg_resources.extras := [];
  pkg_resources.specs := specs
|}.

Definition package_requiring (name version : string)
    (requirements : list pkg_resources.Requirement)
    : package.PackageToConvert := {|
  package.requirement := sdist name version;
  package.metadata := no_metadata;
  package.python_requirements := requirements;
  package.namespace_packages := []
|}.

(** [celery==3.1.16], whose requirements include [pytz>dev]. *)
Definition pytz := requires "pytz" [(">", "dev")].
Definition billiard := requires "billiard" [(">=", "3.3.0.18"); ("<", "3.4")].
Definition kombu := requires "kombu" [(">=", "3.0.23"); ("<", "3.1")].
Definition celery := package_requiring "celery" "3.1.16" [pytz; billiard; kombu].

(** A package that uses the compatible-release operator. *)
Definition modern := package_requiring "modern" "1.0" [requires "six" [("~=", "1.10")]].

(** A package whose only requirement has an unparsable lower bound. *)
Definition loose := package_requiring "loose" "0.1" [requires "pytz" [("~=", "dev")]].

(** A package without version constraints on its requirement. *)
Definition bare := package_requiring "bare" "0.1" [requires "six" []].

(** A package that pins one project to two versions. *)
Definition pinned_twice :=
  package_requiring "pinned" "1.0"
    [requires "foo" [("==", "1.0")]; requires "foo" [("==", "2.0")]].

(** A package that pins two projects. *)
Definition pinned :=
  package_requiring "pinned" "1.0"
    [requires "foo" [("==", "1.0")]; requires "Bar" [("==", "2.0")]].

(** Packages that differ in their metadata only. *)
Definition with_metadata (m : pkginfo.UnpackedSDist)
    : package.PackageToConvert := {|
  package.requirement := sdist "example" "1.0";
  package.metadata := m;
  package.python_requirements := [];
  package.namespace_packages := []
|}.

(** A maintainer without an e-mail address, and an author with both. *)
Definition name_only := with_metadata {|
  pkginfo.maintainer := Some "Alice";
  pkginfo.maintainer_email := None;
  pkginfo.author := Some "Bob";
  pkginfo.author_email := Some "bob@example.org"
|}.

(** No maintainer; the author's address is written in angle brackets. *)
Definition bracketed := with_metadata {|
  pkginfo.maintainer := None;
  pkginfo.maintainer_email := Some "team@example.org";
  pkginfo.author := Some "Bob";
  pkginfo.author_email := Some "<bob@example.org>"
|}.

(** The package of the docstring of [namespaces]. *)
Definition zope_app_cache : package.PackageToConvert := {|
  package.requirement := sdist "zope.app.cache" "3.7.0";
  package.metadata := no_metadata;
  package.python_requirements := [];
  package.namespace_packages := ["zope.app.cache"]
|}.

(** Two build directories, as [os.walk] lists them. *)
Definition pure_python_tree : list (string * list string * list string) :=
  [ ("/tmp/build", ["usr"], []);
    ("/tmp/build/usr/lib/python2.7/dist-packages/six", [],
     ["__init__.py"; "six.py"]) ].

Definition compiled_tree : list (string * list string * list string) :=
  [ ("/tmp/build", ["usr"], []);
    ("/tmp/build/usr/lib/python2.7/dist-packages/lxml", [],
     ["__init__.py"; "etree.so"]) ].

(** A file system seen through [glob.glob]: the matches of each pattern. *)
Definition glob (fs : gmap string (list string)) (pattern : string)
    : list string :=
  default [] (fs !! pattern).

(** An unpacked source distribution without an [.egg-info] directory. *)
Definition no_egg_info : gmap string (list string) := ∅.

(** An unpacked source distribution with two [.egg-info] directories. *)
Definition two_egg_infos : gmap string (list string) :=
  {[ "/tmp/pip-build/example/pip-egg-info/*.egg-info/" :=
       [ "/tmp/pip-build/example/pip-egg-info/example.egg-info/";
         "/tmp/pip-build/example/pip-egg-info/other.egg-info/" ] ]}.

(** An [stdeb.cfg] with two sections that both match [my-package]. *)
Definition stdeb_cfg : configparser.RawConfigParser := {|
  configparser._defaults := {[ "section" := "misc" ]};
  configparser._sections :=
    [ ("my_package", {[ "depends" := "libfoo1" ]});
      ("My-Package", {[ "depends" := "libbar2" ]});
      ("unrelated", {[ "depends" := "libbaz3" ]}) ]
|}.

Definition my_package : package.PackageToConvert :=
  package_requiring "my-package" "1.0" [].

(** Control fields kept as the sequence of the override sets merged into
    them. *)
Definition merge_log (fields : list (gmap string string))
    (overrides : gmap string string) : list (gmap string string) :=
  (fields ++ [overrides])%list.

(** A Debianized package directory for the [stdeb] backend. *)
Definition stdeb_package : stdeb_backend.Package := {|
  stdeb_backend.name := "my-package";
  stdeb_backend.directory := "/tmp/build/my-package";
  stdeb_backend.debian_name := "python-my-package";
  stdeb_backend.debian_dependencies := ["python-six"; "python-foo (>= 1.0)"]
|}.

Definition source_paragraph : gmap string string :=
  {[ "Source" := "my-package"; "Section" := "python" ]}.

Definition binary_paragraph : gmap string string :=
  {[ "Package" := "python-my-package-orig"; "Architecture" := "all" ]}.

Definition debianized : gmap string (list (gmap string string)) :=
  {[ "/tmp/build/my-package/debian/control" :=
       [source_paragraph; binary_paragraph] ]}.

(** Overrides win over the fields of the paragraph. *)
Definition override_wins (fields overrides : gmap string string)
    : gmap string string :=
  overrides ∪ fields.

(** The requirements of [celery] again, in another order and with one of
    them twice. *)
Definition celery_reordered :=
  package_requiring "celery" "3.1.16" [kombu; pytz; billiard; kombu].

(** An unpacked source distribution: what [glob.glob] finds for each
    pattern, and the lines of its text files. *)
Record tree : Type := {
  matches : gmap string (list string);
  files : gmap string (list string)
}.

Definition tree_glob (t : tree) (pattern : string) : list string :=
  default [] (matches t !! pattern).

Definition tree_isfile (t : tree) (filename : string) : bool :=
  bool_decide (is_Some (files t !! filename)).

Definition tree_readlines (t : tree) (filename : string)
    : outcome (list string) :=
  match files t !! filename with
  | Some lines => Returned lines
  | None => Raised (IOError filename)
  end.

(** The white space of text on Python 3, among the first 256 characters:
    that of [string.whitespace], the four separators [FS] to [US], the
    next line character and the no-break space. *)
Definition text_whitespace : string :=
  string_whitespace
    +:+ String "028" (String "029" (String "030" (String "031"
          (String "133" (String "160" ""))))).

(** The source distribution of [example], exported from Mercurial, with a
    namespace declaration and requirements for two extras. *)
Definition example_tree : tree := {|
  matches :=
    {[ "/tmp/pip-build/example/pip-egg-info/*.egg-info/namespace_packages.txt" :=
         ["/tmp/pip-build/example/pip-egg-info/example.egg-info/namespace_packages.txt"];
       "/tmp/pip-build/example/pip-egg-info/*.egg-info/requires.txt" :=
         ["/tmp/pip-build/example/pip-egg-info/example.egg-info/requires.txt"] ]};
  files :=
    {[ "/tmp/pip-build/example/.hg_archival.txt" :=
         [ "repo: 0123456789abcdef" +:+ LF;
           "node: 1a2b3c4d5e6f" +:+ String "031" LF;
           "branch: default" +:+ LF ];
       "/tmp/pip-build/example/pip-egg-info/example.egg-info/namespace_packages.txt" :=
         [ "zope" +:+ LF; LF; "  zope.app " +:+ LF ];
       "/tmp/pip-build/example/pip-egg-info/example.egg-info/requires.txt" :=
         [ "six" +:+ LF; LF; "[Test]" +:+ LF; "mock>=1.0" +:+ LF;
           "[docs]" +:+ LF; "sphinx" +:+ LF ] ]}
|}.

(** A stand-in for [Requirement.parse] that keeps the line as the name. *)
Definition parse_name (line : string) : outcome pkg_resources.Requirement :=
  Returned (requires line []).

(** A first attempt that fails, as when the distribution is not found. *)
Definition requires_fails (extras : list string)
    : outcome (list pkg_resources.Requirement) :=
  Raised (IOError "PKG-INFO").

(** A first attempt that succeeds, with a compatible release clause. *)
Definition requires_modern (extras : list string)
    : outcome (list pkg_resources.Requirement) :=
  Returned [requires "six" [("~=", "1.10")]].

(** The answer of [dpkg-shlibdeps] for a compiled module. *)
Definition dpkg_shlibdeps (command : list string) : outcome string :=
  Returned "shlibs:Depends=libc6 (>= 2.14), libbz2-1.0".

(** An [stdeb.cfg] with values in [DEFAULT] and a section for another
    package. *)
Definition other_cfg : configparser.RawConfigParser := {|
  configparser._defaults := {[ "section" := "misc" ]};
  configparser._sections := [ ("unrelated", {[ "depends" := "libbaz3" ]}) ]
|}.

(** An installation of py2deb: [hooks.py], readable by everyone. *)
Definition hooks_py : string :=
  "/usr/lib/python2.7/dist-packages/py2deb/hooks.py".

Definition hooks_text : string :=
  "import os" +:+ LF +:+ LF +:+ LF
    +:+ "def cleanup_bytecode_files(package_name):" +:+ LF
    +:+ "    pass" +:+ LF.

Definition installed : gmap string (string * nat) :=
  {[ hooks_py := (hooks_text, 4 * 64 + 4 * 8 + 4)%nat ]}.

(** The [repr] of a string without quotes or backslashes. *)
Definition quoted (v : string) : string := "'" +:+ v +:+ "'".

End examples.

(** * Properties *)

#[local] Arguments String.eqb : simpl never.
#[local] Arguments String.append : simpl never.

(** ** The order of [sorted] *)

Lemma str_le_refl s : str_le s s.
Proof. destruct (String.leb_total s s); assumption. Qed.

Lemma compare_lt_trans a b c :
  String.compare a b = Lt → String.compare b c = Lt → String.compare a c = Lt.
Proof.
  intros Hab Hbc.
  pose proof (StrictOrder_Transitive (R := OrdersEx.String_as_OT.lt)) as T.
  exact (T a b c Hab Hbc).
Qed.

#[local] Instance str_le_trans : Transitive str_le.
Proof.
  intros a b c. unfold str_le, String.leb.
  destruct (String.compare a b) eqn:Hab; [|  |discriminate].
  - apply String.compare_eq_iff in Hab. subst. auto.
  - destruct (String.compare b c) eqn:Hbc; [|  |discriminate].
    + apply String.compare_eq_iff in Hbc. subst. rewrite Hab. auto.
    + rewrite (compare_lt_trans _ _ _ Hab Hbc). auto.
Qed.

#[local] Instance str_le_total : Total str_le.
Proof. intros a b. apply String.leb_total. Qed.

#[local] Instance str_le_antisym : AntiSymm eq str_le.
Proof. intros a b. apply String.leb_antisym. Qed.

#[local] Instance len_le_trans {A} : Transitive (@len_le A).
Proof. intros a b c. unfold len_le. lia. Qed.

#[local] Instance len_le_total {A} : Total (@len_le A).
Proof. intros a b. unfold len_le. lia. Qed.

Lemma elem_of_sorted x l : x ∈ sorted l ↔ x ∈ l.
Proof. unfold sorted. by rewrite merge_sort_Permutation. Qed.

Lemma sorted_Sorted l : Sorted str_le (sorted l).
Proof. apply Sorted_merge_sort, _. Qed.

Lemma sorted_NoDup l : NoDup l → NoDup (sorted l).
Proof. unfold sorted. by rewrite merge_sort_Permutation. Qed.

(** [sorted] depends on the elements only, not on their order. *)
Lemma sorted_Permutation l k : l ≡ₚ k → sorted l = sorted k.
Proof.
  intros Hp. apply (Sorted_unique str_le); try apply sorted_Sorted.
  unfold sorted. by rewrite !merge_sort_Permutation.
Qed.

(** ** Loops *)

(** A loop whose body adds the elements [g x] to a set. *)
Lemma for_each_returns {A} (body : gset string → A → outcome (gset string))
    (g : A → list string) l s :
  (∀ x, x ∈ l → ∀ s, body s x = Returned (list_to_set (g x) ∪ s)) →
  for_each body l s = Returned (list_to_set (l ≫= g) ∪ s).
Proof.
  revert s. induction l as [|x l IH]; intros s Hb; simpl.
  - f_equal. set_solver.
  - rewrite Hb by apply list_elem_of_here. simpl.
    rewrite IH by (intros; apply Hb; by apply list_elem_of_further).
    f_equal. set_solver.
Qed.

(** A loop raises as soon as one element makes the body raise. *)
Lemma for_each_raises {A S} (body : S → A → outcome S) l x s :
  x ∈ l → (∀ s, raises (body s x)) → raises (for_each body l s).
Proof.
  intros Hx Hr. revert s. induction l as [|y l IH]; intros s; simpl.
  - by apply elem_of_nil in Hx.
  - apply elem_of_cons in Hx as [->|Hx].
    + destruct (Hr s) as [e ->]. by exists e.
    + destruct (body s y) as [s'|e]; simpl; [by apply IH | by exists e].
Qed.

(** ** The dependency mapper *)

(** The rows of the table, and the operators it has no row for. *)
Lemma relationship_rows name version :
  from_spec.relationship "==" name version
    = Some (name +:+ " (= " +:+ version +:+ ")") ∧
  from_spec.relationship "!=" name version
    = Some (name +:+ " (<< " +:+ version +:+ ") | "
              +:+ name +:+ " (>> " +:+ version +:+ ")") ∧
  from_spec.relationship "<" name version
    = Some (name +:+ " (<< " +:+ version +:+ ")") ∧
  from_spec.relationship ">" name version
    = Some (name +:+ " (>> " +:+ version +:+ ")") ∧
  from_spec.relationship "<=" name version
    = Some (name +:+ " (<= " +:+ version +:+ ")") ∧
  from_spec.relationship ">=" name version
    = Some (name +:+ " (>= " +:+ version +:+ ")").
Proof. repeat split. Qed.

Lemma relationship_None operator name version :
  from_spec.relationship operator name version = None ↔
  operator ∉ ["=="; "!="; "<"; ">"; "<="; ">="].
Proof.
  unfold from_spec.relationship, from_spec.relationship_table. simpl.
  rewrite !not_elem_of_cons.
  repeat (match goal with
          | |- context [?k =? operator] =>
              destruct (String.eqb_spec k operator) as [<-|]
          end; [split; [discriminate | intros H; exfalso; tauto]|]).
  split; [|done]. intros _. repeat split; try congruence. apply not_elem_of_nil.
Qed.

Section mapper.

Variable converter : package.PackageConverter.
Variable self : package.PackageToConvert.

#[local] Abbreviation name_of := (debian_package_name converter).
#[local] Abbreviation version_of := (debian_version converter self).
#[local] Abbreviation entry_of := (constraint_entry converter self).

(** One pass through the body of the loop over the specifiers. *)
Lemma add_constraint_entry r deps spec :
  package.add_constraint converter self r (name_of r) deps spec =
  match entry_of r spec with
  | Some entry => Returned ({[ entry ]} ∪ deps)
  | None =>
      Raised (ConversionSpecifierNotSupported spec.1 (package.python_name self))
  end.
Proof.
  destruct spec as [c v].
  unfold package.add_constraint, constraint_entry, debian_version. simpl.
  destruct (_ =? "dev"); [done|].
  unfold from_spec.relationship, from_spec.relationship_table. simpl.
  rewrite !(String.eqb_sym _ c).
  destruct (c =? "=="); [done|]. destruct (c =? "!="); [done|].
  destruct (c =? "<"); [done|]. destruct (c =? ">"); [done|].
  destruct (String.eqb_spec c "<=") as [->|]; [done|].
  destruct (String.eqb_spec c ">=") as [->|]; done.
Qed.

Lemma add_constraint_returns r deps spec :
  is_Some (entry_of r spec) →
  package.add_constraint converter self r (name_of r) deps spec =
  Returned (list_to_set (option_list (entry_of r spec)) ∪ deps).
Proof.
  intros [entry He]. rewrite add_constraint_entry, He. simpl.
  f_equal. set_solver.
Qed.

Lemma add_constraint_raises r deps spec :
  entry_of r spec = None →
  raises (package.add_constraint converter self r (name_of r) deps spec).
Proof. intros He. rewrite add_constraint_entry, He. by eexists. Qed.

(** One pass through the body of the loop over the requirements. *)
Lemma add_requirement_returns r deps :
  (∀ spec, spec ∈ pkg_resources.specs r → is_Some (entry_of r spec)) →
  package.add_requirement converter self deps r =
  Returned (list_to_set (requirement_entries converter self r) ∪ deps).
Proof.
  intros Hs. unfold package.add_requirement, requirement_entries.
  fold (name_of r).
  destruct (pkg_resources.specs r) as [|spec l] eqn:E.
  - f_equal. set_solver.
  - apply for_each_returns. intros x Hx s. by apply add_constraint_returns, Hs.
Qed.

Lemma add_requirement_raises r deps spec :
  spec ∈ pkg_resources.specs r → entry_of r spec = None →
  raises (package.add_requirement converter self deps r).
Proof.
  intros Hs He. unfold package.add_requirement. fold (name_of r).
  destruct (pkg_resources.specs r) as [|spec' l] eqn:E.
  - by apply elem_of_nil in Hs.
  - apply (for_each_raises _ _ spec); [done|].
    intros s. by apply add_constraint_raises.
Qed.

(** The mapper returns when every constraint has an entry, ... *)
Lemma debian_dependencies_returns :
  (∀ r spec, r ∈ package.python_requirements self →
             spec ∈ pkg_resources.specs r → is_Some (entry_of r spec)) →
  package.debian_dependencies converter self =
  Returned (sorted (elements (list_to_set (C := gset string)
                                (dependency_entries converter self)))).
Proof.
  intros Hs. unfold package.debian_dependencies, dependency_entries.
  rewrite (for_each_returns _ (requirement_entries converter self)).
  - simpl. do 3 f_equal. set_solver.
  - intros r Hr s. apply add_requirement_returns. intros spec. by apply Hs.
Qed.

(** ... and raises when some constraint has none. *)
Lemma debian_dependencies_raises r spec :
  r ∈ package.python_requirements self →
  spec ∈ pkg_resources.specs r → entry_of r spec = None →
  raises (package.debian_dependencies converter self).
Proof.
  intros Hr Hs He. unfold package.debian_dependencies.
  destruct (for_each_raises (package.add_requirement converter self)
              (package.python_requirements self) r ∅ Hr) as [e ->].
  - intros s. by apply (add_requirement_raises _ _ spec).
  - by exists e.
Qed.

End mapper.

Section mapper_result.

Variable converter : package.PackageConverter.
Variable self : package.PackageToConvert.

#[local] Abbreviation name_of := (debian_package_name converter).
#[local] Abbreviation version_of := (debian_version converter self).
#[local] Abbreviation entry_of := (constraint_entry converter self).

Lemma elem_of_requirement_entries entry r :
  entry ∈ requirement_entries converter self r ↔
  (pkg_resources.specs r = [] ∧ entry = name_of r) ∨
  (∃ spec, spec ∈ pkg_resources.specs r ∧ entry_of r spec = Some entry).
Proof.
  unfold requirement_entries.
  destruct (pkg_resources.specs r) as [|spec0 l] eqn:E.
  - rewrite list_elem_of_singleton. split.
    + intros ->. by left.
    + intros [[_ ->]|(spec & Hs & _)]; [done|]. by apply elem_of_nil in Hs.
  - rewrite list_elem_of_bind. split.
    + intros (spec & He & Hs). right. exists spec. split; [done|].
      destruct (entry_of r spec); simpl in He.
      * apply list_elem_of_singleton in He. by subst.
      * by apply elem_of_nil in He.
    + intros [[? _]|(spec & Hs & He)]; [done|]. exists spec. split; [|done].
      rewrite He. simpl. apply list_elem_of_here.
Qed.

Lemma elem_of_dependency_entries entry :
  entry ∈ dependency_entries converter self ↔
  ∃ r, r ∈ package.python_requirements self ∧
       ((pkg_resources.specs r = [] ∧ entry = name_of r) ∨
        (∃ spec, spec ∈ pkg_resources.specs r ∧ entry_of r spec = Some entry)).
Proof.
  unfold dependency_entries. rewrite list_elem_of_bind.
  split; intros (r & H1 & H2); exists r.
  - split; [done|]. by apply elem_of_requirement_entries.
  - split; [|done]. by apply elem_of_requirement_entries.
Qed.

(** What the mapper returns, when it returns. *)
Lemma debian_dependencies_inv deps :
  package.debian_dependencies converter self = Returned deps →
  (∀ r spec, r ∈ package.python_requirements self →
             spec ∈ pkg_resources.specs r → is_Some (entry_of r spec)) ∧
  deps = sorted (elements (list_to_set (C := gset string)
                             (dependency_entries converter self))).
Proof.
  intros Hd.
  assert (∀ r spec, r ∈ package.python_requirements self →
            spec ∈ pkg_resources.specs r → is_Some (entry_of r spec)) as Hs.
  { intros r spec Hr Hs. destruct (entry_of r spec) eqn:E; [by eexists|].
    destruct (debian_dependencies_raises converter self r spec Hr Hs E) as [e He].
    congruence. }
  split; [done|].
  rewrite (debian_dependencies_returns converter self Hs) in Hd. congruence.
Qed.

Lemma elem_of_sorted_set entry (l : list string) :
  entry ∈ sorted (elements (list_to_set (C := gset string) l)) ↔ entry ∈ l.
Proof. by rewrite elem_of_sorted, elem_of_elements, elem_of_list_to_set. Qed.

Lemma sorted_set_NoDup (l : list string) :
  NoDup (sorted (elements (list_to_set (C := gset string) l))).
Proof. apply sorted_NoDup, NoDup_elements. Qed.

End mapper_result.

(** ** Claims about the dependency mapper *)

(** The mapper returns when every constraint of every requirement carries
    the [dev] marker or one of the six operators of the table. *)
Lemma debian_dependencies_supported converter self :
  (∀ r operator version,
     r ∈ package.python_requirements self →
     (operator, version) ∈ pkg_resources.specs r →
     debian_version converter self r version = "dev" ∨
     operator ∈ ["=="; "!="; "<"; ">"; "<="; ">="]) →
  package.debian_dependencies converter self =
  Returned (sorted (elements (list_to_set (C := gset string)
                                (dependency_entries converter self)))).
Proof.
  intros Hsupported. apply debian_dependencies_returns.
  intros r [operator version] Hr Hs. unfold constraint_entry. simpl.
  destruct (String.eqb_spec (debian_version converter self r version) "dev")
    as [|Hdev]; [by eexists|].
  destruct (Hsupported r operator version Hr Hs) as [|Hrow]; [done|].
  destruct (from_spec.relationship operator (debian_package_name converter r)
              (debian_version converter self r version)) eqn:E; [by eexists|].
  by apply relationship_None in E.
Qed.

(** C1. For a requirement of the package and one of its constraints whose
    normalized version is not the [dev] marker, the loop body adds exactly
    the entry of the specification's table, or raises the unsupported
    specifier error when the table has no row for the operator. For the
    mapper as a whole: with a row, the entry is among the returned
    dependencies whenever the mapper returns, and the mapper does return,
    with the entry in its list, when every constraint of the package
    carries the [dev] marker or one of the six operators; without a row
    the mapper raises. *)
Theorem debian_dependencies_follow_table converter self r operator version :
  r ∈ package.python_requirements self →
  (operator, version) ∈ pkg_resources.specs r →
  debian_version converter self r version ≠ "dev" →
  (∀ deps,
     package.add_constraint converter self r (debian_package_name converter r)
       deps (operator, version) =
     match from_spec.relationship operator (debian_package_name converter r)
             (debian_version converter self r version) with
     | Some entry => Returned ({[ entry ]} ∪ deps)
     | None =>
         Raised (ConversionSpecifierNotSupported operator
                   (package.python_name self))
     end) ∧
  match from_spec.relationship operator (debian_package_name converter r)
          (debian_version converter self r version) with
  | Some entry =>
      (∀ deps, package.debian_dependencies converter self = Returned deps →
               entry ∈ deps) ∧
      ((∀ r' operator' version',
          r' ∈ package.python_requirements self →
          (operator', version') ∈ pkg_resources.specs r' →
          debian_version converter self r' version' = "dev" ∨
          operator' ∈ ["=="; "!="; "<"; ">"; "<="; ">="]) →
       ∃ deps, package.debian_dependencies converter self = Returned deps ∧
               entry ∈ deps)
  | None => raises (package.debian_dependencies converter self)
  end.
Proof.
  intros Hr Hs Hdev.
  assert (constraint_entry converter self r (operator, version) =
          from_spec.relationship operator (debian_package_name converter r)
            (debian_version converter self r version)) as He.
  { unfold constraint_entry. simpl.
    by apply String.eqb_neq in Hdev as ->. }
  split.
  - intros deps. by rewrite add_constraint_entry, He.
  - destruct (from_spec.relationship _ _ _) as [entry|] eqn:Hrow.
    + assert (∀ deps,
                package.debian_dependencies converter self = Returned deps →
                entry ∈ deps) as Hin.
      { intros deps Hd. apply debian_dependencies_inv in Hd as [_ ->].
        apply elem_of_sorted_set, elem_of_dependency_entries.
        exists r. split; [done|]. right. by exists (operator, version). }
      split; [exact Hin|]. intros Hsupported.
      pose proof (debian_dependencies_supported converter self Hsupported)
        as Hd.
      eexists. split; [exact Hd|]. by apply Hin.
    + by apply (debian_dependencies_raises converter self r (operator, version)).
Qed.

Lemma debian_dependencies_follow_table_witness :
  examples.kombu ∈ package.python_requirements examples.celery ∧
  (">=", "3.0.23") ∈ pkg_resources.specs examples.kombu ∧
  debian_version examples.converter examples.celery examples.kombu "3.0.23"
    ≠ "dev" ∧
  (∀ deps,
     package.add_constraint examples.converter examples.celery examples.kombu
       "python-kombu" deps (">=", "3.0.23") =
     Returned ({[ "python-kombu (>= 3.0.23)" ]} ∪ deps)) ∧
  (∀ deps,
     package.debian_dependencies examples.converter examples.celery
       = Returned deps →
     "python-kombu (>= 3.0.23)" ∈ deps) ∧
  (∃ deps,
     package.debian_dependencies examples.converter examples.celery
       = Returned deps ∧
     "python-kombu (>= 3.0.23)" ∈ deps).
Proof.
  assert (examples.kombu ∈ package.python_requirements examples.celery) as H1
    by (do 2 apply list_elem_of_further; apply list_elem_of_here).
  assert ((">=", "3.0.23") ∈ pkg_resources.specs examples.kombu) as H2
    by apply list_elem_of_here.
  assert (debian_version examples.converter examples.celery examples.kombu
            "3.0.23" ≠ "dev") as H3 by (vm_compute; discriminate).
  split; [exact H1|]. split; [exact H2|]. split; [exact H3|].
  destruct (debian_dependencies_follow_table examples.converter
              examples.celery examples.kombu ">=" "3.0.23" H1 H2 H3)
    as (Hstep & Hin & Hreturns).
  split; [exact Hstep|]. split; [exact Hin|].
  apply Hreturns. intros r' operator' version' Hr Hs.
  change (package.python_requirements examples.celery)
    with [examples.pytz; examples.billiard; examples.kombu] in Hr.
  repeat (apply elem_of_cons in Hr as [->|Hr]);
    [| | |by apply elem_of_nil in Hr];
    cbn [examples.pytz examples.billiard examples.kombu examples.requires
           pkg_resources.specs] in Hs;
    repeat (apply elem_of_cons in Hs as [[= -> ->]|Hs]);
    try (by apply elem_of_nil in Hs);
    first [ left; reflexivity
          | right;
            repeat first [apply list_elem_of_here | apply list_elem_of_further] ].
Defined.

(** C2. A constraint whose normalized version is the [dev] marker makes
    the loop body add the bare transformed name instead of failing,
    whatever its operator, and a requirement without version specifiers
    adds the bare transformed name too. For the mapper as a whole: in
    both cases the name is among the returned dependencies whenever the
    mapper returns, and the mapper does return, with the name in its
    list, when every constraint of the package carries the [dev] marker
    or one of the six operators. *)
Theorem debian_dependencies_bare_name converter self r :
  r ∈ package.python_requirements self →
  (∀ operator version deps,
     debian_version converter self r version = "dev" →
     package.add_constraint converter self r (debian_package_name converter r)
       deps (operator, version) =
     Returned ({[ debian_package_name converter r ]} ∪ deps)) ∧
  (pkg_resources.specs r = [] →
   ∀ deps, package.add_requirement converter self deps r =
           Returned ({[ debian_package_name converter r ]} ∪ deps)) ∧
  (pkg_resources.specs r = [] ∨
   (∃ operator version,
      (operator, version) ∈ pkg_resources.specs r ∧
      debian_version converter self r version = "dev") →
   ∀ deps, package.debian_dependencies converter self = Returned deps →
           debian_package_name converter r ∈ deps) ∧
  (pkg_resources.specs r = [] ∨
   (∃ operator version,
      (operator, version) ∈ pkg_resources.specs r ∧
      debian_version converter self r version = "dev") →
   (∀ r' operator' version',
      r' ∈ package.python_requirements self →
      (operator', version') ∈ pkg_resources.specs r' →
      debian_version converter self r' version' = "dev" ∨
      operator' ∈ ["=="; "!="; "<"; ">"; "<="; ">="]) →
   ∃ deps, package.debian_dependencies converter self = Returned deps ∧
           debian_package_name converter r ∈ deps).
Proof.
  intros Hr.
  assert (pkg_resources.specs r = [] ∨
          (∃ operator version,
             (operator, version) ∈ pkg_resources.specs r ∧
             debian_version converter self r version = "dev") →
          ∀ deps, package.debian_dependencies converter self = Returned deps →
                  debian_package_name converter r ∈ deps) as Hin.
  { intros Hcase deps Hd. apply debian_dependencies_inv in Hd as [_ ->].
    apply elem_of_sorted_set, elem_of_dependency_entries.
    exists r. split; [done|].
    destruct Hcase as [Hs|(operator & version & Hs & Hdev)]; [by left|].
    right. exists (operator, version). split; [done|].
    unfold constraint_entry. simpl. by rewrite Hdev. }
  split; [|split; [|split]].
  - intros operator version deps Hdev.
    rewrite add_constraint_entry. unfold constraint_entry. simpl.
    by rewrite Hdev.
  - intros Hs deps. unfold package.add_requirement. by rewrite Hs.
  - exact Hin.
  - intros Hcase Hsupported.
    pose proof (debian_dependencies_supported converter self Hsupported)
      as Hd.
    eexists. split; [exact Hd|]. by apply (Hin Hcase).
Qed.

Lemma debian_dependencies_bare_name_witness :
  examples.pytz ∈ package.python_requirements examples.celery ∧
  package.add_constraint examples.converter examples.celery examples.pytz
    "python-pytz" ∅ (">", "dev") = Returned ({[ "python-pytz" ]} ∪ ∅) ∧
  (∀ deps,
     package.debian_dependencies examples.converter examples.celery
       = Returned deps →
     "python-pytz" ∈ deps) ∧
  (∃ deps,
     package.debian_dependencies examples.converter examples.celery
       = Returned deps ∧
     "python-pytz" ∈ deps).
Proof.
  assert (examples.pytz ∈ package.python_requirements examples.celery) as H1
    by apply list_elem_of_here.
  destruct (debian_dependencies_bare_name examples.converter examples.celery
              examples.pytz H1) as (Hstep & _ & Hall & Hreturns).
  assert (pkg_resources.specs examples.pytz = [] ∨
          (∃ operator version,
             (operator, version) ∈ pkg_resources.specs examples.pytz ∧
             debian_version examples.converter examples.celery examples.pytz
               version = "dev")) as Hcase.
  { right. exists ">", "dev". split; [apply list_elem_of_here|reflexivity]. }
  split; [exact H1|]. split; [|split].
  - exact (Hstep ">" "dev" ∅ eq_refl).
  - by apply Hall.
  - apply Hreturns; [exact Hcase|]. intros r' operator' version' Hr Hs.
    change (package.python_requirements examples.celery)
      with [examples.pytz; examples.billiard; examples.kombu] in Hr.
    repeat (apply elem_of_cons in Hr as [->|Hr]);
      [| | |by apply elem_of_nil in Hr];
      cbn [examples.pytz examples.billiard examples.kombu examples.requires
             pkg_resources.specs] in Hs;
      repeat (apply elem_of_cons in Hs as [[= -> ->]|Hs]);
      try (by apply elem_of_nil in Hs);
      first [ left; reflexivity
            | right;
              repeat first [apply list_elem_of_here
                           | apply list_elem_of_further] ].
Defined.

(** C10. The [dev] marker is tested before the operator: when the
    normalized version of a constraint is [dev] the loop body returns with
    the bare name added, whatever the operator, also when the table has no
    row for it; and a package all of whose constraints carry the marker is
    mapped without an error, to the bare names of its requirements. *)
Theorem dev_marker_checked_first converter self r operator version deps :
  debian_version converter self r version = "dev" →
  package.add_constraint converter self r (debian_package_name converter r)
    deps (operator, version) =
  Returned ({[ debian_package_name converter r ]} ∪ deps) ∧
  (from_spec.relationship operator (debian_package_name converter r) "dev"
     = None →
   ¬ raises (package.add_constraint converter self r
               (debian_package_name converter r) deps (operator, version))) ∧
  ((∀ r' spec, r' ∈ package.python_requirements self →
               spec ∈ pkg_resources.specs r' →
               debian_version converter self r' spec.2 = "dev") →
   ∃ result,
     package.debian_dependencies converter self = Returned result ∧
     ∀ entry, entry ∈ result ↔
              ∃ r', r' ∈ package.python_requirements self ∧
                    entry = debian_package_name converter r').
Proof.
  intros Hdev.
  assert (package.add_constraint converter self r
            (debian_package_name converter r) deps (operator, version) =
          Returned ({[ debian_package_name converter r ]} ∪ deps)) as Hstep.
  { rewrite add_constraint_entry. unfold constraint_entry. simpl.
    by rewrite Hdev. }
  split; [done|]. split.
  - intros _ [e He]. congruence.
  - intros Hall.
    assert (∀ r' spec, constraint_entry converter self r' spec =
              (if debian_version converter self r' spec.2 =? "dev"
               then Some (debian_package_name converter r')
               else from_spec.relationship spec.1
                      (debian_package_name converter r')
                      (debian_version converter self r' spec.2))) as Hentry
      by done.
    eexists. split.
    + apply debian_dependencies_returns. intros r' spec Hr Hs.
      rewrite Hentry, (Hall r' spec Hr Hs). by eexists.
    + intros entry. rewrite elem_of_sorted_set, elem_of_dependency_entries.
      split.
      * intros (r' & Hr & [[_ ->]|(spec & Hs & He)]); exists r'; [done|].
        rewrite Hentry, (Hall r' spec Hr Hs) in He. simpl in He.
        split; [done|]. congruence.
      * intros (r' & Hr & ->). exists r'. split; [done|].
        destruct (pkg_resources.specs r') as [|spec l] eqn:E; [by left|].
        right. exists spec. split; [apply list_elem_of_here|].
        rewrite Hentry, (Hall r' spec Hr); [done|].
        rewrite E. apply list_elem_of_here.
Qed.

Lemma dev_marker_checked_first_witness :
  from_spec.relationship "~=" "python-pytz" "dev" = None ∧
  package.add_constraint examples.converter examples.loose
    (examples.requires "pytz" [("~=", "dev")]) "python-pytz" ∅ ("~=", "dev")
  = Returned ({[ "python-pytz" ]} ∪ ∅).
Proof.
  split; [reflexivity|].
  exact (proj1 (dev_marker_checked_first examples.converter examples.loose
                  (examples.requires "pytz" [("~=", "dev")]) "~=" "dev" ∅
                  eq_refl)).
Defined.

(** The requirements of [celery==3.1.16], with [pytz>dev] among them. *)
Example dependencies_of_celery :
  package.debian_dependencies examples.converter examples.celery =
  Returned [ "python-billiard (<< 3.4)"; "python-billiard (>= 3.3.0.18)";
             "python-kombu (<< 3.1)"; "python-kombu (>= 3.0.23)";
             "python-pytz" ].
Proof. vm_compute. reflexivity. Qed.

Example dependencies_of_bare :
  package.debian_dependencies examples.converter examples.bare =
  Returned ["python-six"].
Proof. vm_compute. reflexivity. Qed.

Example compatible_release_is_not_supported :
  package.debian_dependencies examples.converter examples.modern =
  Raised (ConversionSpecifierNotSupported "~=" "modern").
Proof. vm_compute. reflexivity. Qed.

(** Counting the distinct elements two maps produce over one list. *)
Lemma size_list_to_set_remove_dups (l : list string) :
  size (list_to_set (C := gset string) l) = List.length (remove_dups l).
Proof.
  rewrite <- (size_list_to_set (C := gset string) (remove_dups l))
    by apply NoDup_remove_dups.
  f_equal. apply set_eq. intros x.
  by rewrite !elem_of_list_to_set, elem_of_remove_dups.
Qed.

Lemma size_bind_classes {A} (g : A → list string) (h : A → string) l :
  (∀ x, x ∈ l → g x ≠ []) →
  (∀ x y b b', x ∈ l → y ∈ l → b ∈ g x → b' ∈ g y → (b = b' ↔ h x = h y)) →
  size (list_to_set (C := gset string) (l ≫= g)) =
  size (list_to_set (C := gset string) (h <$> l)).
Proof.
  induction l as [|x l IH]; intros Hne Hcl; [done|].
  assert (size (list_to_set (C := gset string) (l ≫= g)) =
          size (list_to_set (C := gset string) (h <$> l))) as IH'.
  { apply IH.
    - intros y Hy. apply Hne. by apply list_elem_of_further.
    - intros y z b b' Hy Hz. apply Hcl; by apply list_elem_of_further. }
  clear IH.
  destruct (g x) as [|b0 bs] eqn:Hg.
  { exfalso. by apply (Hne x); [apply list_elem_of_here|]. }
  assert (list_to_set (C := gset string) (g x) = {[ b0 ]}) as Hsingle.
  { apply set_eq. intros b. rewrite elem_of_list_to_set, elem_of_singleton.
    split.
    - intros Hb. apply (Hcl x x b b0); try apply list_elem_of_here; try done.
      rewrite Hg. apply list_elem_of_here.
    - intros ->. rewrite Hg. apply list_elem_of_here. }
  assert (list_to_set (C := gset string) ((x :: l) ≫= g) =
          {[ b0 ]} ∪ list_to_set (l ≫= g)) as ->.
  { rewrite <- Hsingle. simpl. by rewrite list_to_set_app_L. }
  assert (list_to_set (C := gset string) (h <$> x :: l) =
          {[ h x ]} ∪ list_to_set (h <$> l)) as -> by done.
  assert (b0 ∈ g x) as Hb0 by (rewrite Hg; apply list_elem_of_here).
  assert (b0 ∈ list_to_set (C := gset string) (l ≫= g) ↔
          h x ∈ list_to_set (C := gset string) (h <$> l)) as Hiff.
  { rewrite !elem_of_list_to_set, list_elem_of_bind, list_elem_of_fmap. split.
    - intros (y & Hb & Hy). exists y. split; [|done].
      apply (Hcl x y b0 b0); try done; [apply list_elem_of_here|].
      by apply list_elem_of_further.
    - intros (y & Hh & Hy).
      destruct (g y) as [|b' bs'] eqn:Hgy.
      { exfalso. by apply (Hne y); [apply list_elem_of_further|]. }
      exists y. split; [|done].
      assert (b0 = b') as ->.
      { apply (Hcl x y b0 b'); try done; [apply list_elem_of_here| |].
        - by apply list_elem_of_further.
        - rewrite Hgy. apply list_elem_of_here. }
      rewrite Hgy. apply list_elem_of_here. }
  destruct (decide (b0 ∈ list_to_set (C := gset string) (l ≫= g))) as [Hin|Hout].
  - rewrite (subseteq_union_1_L {[ b0 ]}) by set_solver.
    rewrite (subseteq_union_1_L {[ h x ]}) by set_solver.
    done.
  - rewrite !size_union by set_solver. rewrite !size_singleton. by rewrite IH'.
Qed.

Lemma relationship_pin converter self r version :
  from_spec.relationship "==" (debian_package_name converter r)
    (debian_version converter self r version) =
  Some (pin converter self r version).
Proof. reflexivity. Qed.

Lemma pinned_entry converter self r operator version :
  pinned_only converter self →
  r ∈ package.python_requirements self →
  (operator, version) ∈ pkg_resources.specs r →
  operator = "==" ∧
  constraint_entry converter self r (operator, version) =
  Some (pin converter self r version).
Proof.
  intros Hp Hr Hs. destruct (Hp r Hr) as [_ Hops].
  destruct (Hops operator version Hs) as [-> Hdev]. split; [done|].
  unfold constraint_entry. simpl.
  apply String.eqb_neq in Hdev as ->. apply relationship_pin.
Qed.

(** C7, as the code has it. When every requirement has at least one
    specifier, every specifier uses [==] and no normalized version is the
    [dev] marker, the mapper returns a list without duplicates, sorted
    lexically, whose entries are exactly the pins
    [name (= normalizedVersion)] of the requirements; it has one entry per
    distinct project name when, in addition, two pins coincide exactly when
    their project names do. *)
Theorem debian_dependencies_of_pins converter self :
  pinned_only converter self →
  ∃ deps,
    package.debian_dependencies converter self = Returned deps ∧
    (∀ entry, entry ∈ deps ↔
       ∃ r version, r ∈ package.python_requirements self ∧
                    ("==", version) ∈ pkg_resources.specs r ∧
                    entry = pin converter self r version) ∧
    NoDup deps ∧ Sorted str_le deps ∧
    (one_pin_per_project converter self →
     List.length deps = List.length (project_names self)).
Proof.
  intros Hp. eexists. split; [|split; [|split; [|split]]].
  - apply debian_dependencies_returns. intros r [operator version] Hr Hs.
    destruct (pinned_entry converter self r operator version Hp Hr Hs)
      as [_ ->]. by eexists.
  - intros entry. rewrite elem_of_sorted_set, elem_of_dependency_entries.
    split.
    + intros (r & Hr & [[Hnil _]|([operator version] & Hs & He)]).
      { by destruct (Hp r Hr). }
      destruct (pinned_entry converter self r operator version Hp Hr Hs)
        as [-> He'].
      exists r, version. repeat split; [done..|congruence].
    + intros (r & version & Hr & Hs & ->). exists r. split; [done|]. right.
      exists ("==", version). split; [done|].
      by destruct (pinned_entry converter self r "==" version Hp Hr Hs).
  - apply sorted_set_NoDup.
  - apply sorted_Sorted.
  - intros Hone. unfold sorted. rewrite merge_sort_Permutation.
    fold (size (list_to_set (C := gset string)
                  (dependency_entries converter self))).
    unfold project_names. rewrite <- size_list_to_set_remove_dups.
    unfold dependency_entries. apply size_bind_classes.
    + intros r Hr Hnil. destruct (Hp r Hr) as [Hne _].
      unfold requirement_entries in Hnil.
      destruct (pkg_resources.specs r) as [|[operator version] l] eqn:E;
        [done|].
      assert ((operator, version) ∈ pkg_resources.specs r) as Hs
        by (rewrite E; apply list_elem_of_here).
      destruct (pinned_entry converter self r operator version Hp Hr Hs)
        as [_ He].
      simpl in Hnil. rewrite He in Hnil. done.
    + intros r1 r2 b1 b2 Hr1 Hr2 Hb1 Hb2.
      apply elem_of_requirement_entries in Hb1
        as [[Hnil _]|([o1 v1] & Hs1 & He1)]; [by destruct (Hp r1 Hr1)|].
      apply elem_of_requirement_entries in Hb2
        as [[Hnil _]|([o2 v2] & Hs2 & He2)]; [by destruct (Hp r2 Hr2)|].
      destruct (pinned_entry converter self r1 o1 v1 Hp Hr1 Hs1) as [-> He1'].
      destruct (pinned_entry converter self r2 o2 v2 Hp Hr2 Hs2) as [-> He2'].
      assert (b1 = pin converter self r1 v1) as -> by congruence.
      assert (b2 = pin converter self r2 v2) as -> by congruence.
      by apply Hone.
Qed.

Ltac list_cases :=
  repeat match goal with
         | H : _ ∈ [] |- _ => by apply elem_of_nil in H
         | H : _ ∈ _ :: _ |- _ => apply elem_of_cons in H as [H|H]
         end.

Lemma debian_dependencies_of_pins_witness :
  pinned_only examples.converter examples.pinned ∧
  one_pin_per_project examples.converter examples.pinned ∧
  ∃ deps,
    package.debian_dependencies examples.converter examples.pinned
      = Returned deps ∧
    deps = ["python-bar (= 2.0)"; "python-foo (= 1.0)"] ∧
    List.length deps = List.length (project_names examples.pinned).
Proof.
  assert (pinned_only examples.converter examples.pinned) as Hp.
  { intros r Hr. simpl in Hr. list_cases; subst r; simpl;
      (split; [discriminate|]); intros operator version Hs; list_cases;
      injection Hs as -> ->; (split; [reflexivity|]); vm_compute; discriminate. }
  assert (one_pin_per_project examples.converter examples.pinned) as Hone.
  { intros r1 r2 v1 v2 H1 H2 Hs1 Hs2. simpl in H1, H2.
    list_cases; subst r1 r2; simpl in Hs1, Hs2; list_cases;
      injection Hs1 as ->; injection Hs2 as ->;
      vm_compute; split; intros H; (reflexivity || discriminate H). }
  split; [exact Hp|]. split; [exact Hone|].
  destruct (debian_dependencies_of_pins examples.converter examples.pinned Hp)
    as (deps & Hd & _ & _ & _ & Hlen).
  exists deps. split; [exact Hd|]. split; [|exact (Hlen Hone)].
  assert (package.debian_dependencies examples.converter examples.pinned =
          Returned ["python-bar (= 2.0)"; "python-foo (= 1.0)"]) as Hv
    by (vm_compute; reflexivity).
  rewrite Hv in Hd. injection Hd as <-. reflexivity.
Defined.

(** C7, as it is stated, fails: two requirements that pin the same project
    to different versions use only [==], yet the mapper returns two
    entries for the one project name. *)
Lemma pinned_twice_two_entries :
  Forall (λ r, Forall (λ spec, spec.1 = "==") (pkg_resources.specs r))
         (package.python_requirements examples.pinned_twice) ∧
  package.debian_dependencies examples.converter examples.pinned_twice
    = Returned ["python-foo (= 1.0)"; "python-foo (= 2.0)"] ∧
  project_names examples.pinned_twice = ["foo"] ∧
  List.length ["python-foo (= 1.0)"; "python-foo (= 2.0)"]
    ≠ List.length (project_names examples.pinned_twice).
Proof.
  split; [repeat constructor|].
  split; [vm_compute; reflexivity|].
  split; [vm_compute; reflexivity|].
  vm_compute. discriminate.
Qed.

(** ** The maintainer *)

Lemma truthy_Some n : n ≠ "" → truthy (Some n) = true.
Proof. intros Hn. simpl. by apply String.eqb_neq in Hn as ->. Qed.

Lemma mem_char_head c s : mem_char c (String c s) = true.
Proof. simpl. by rewrite Ascii.eqb_refl. Qed.

Lemma mem_char_tail c d s : mem_char c s = true → mem_char c (String d s) = true.
Proof. simpl. intros ->. apply orb_true_r. Qed.

(** [strip] leaves a string without characters of [chars] as it is. *)
Lemma strip_none chars s :
  (∀ c, mem_char c s = true → mem_char c chars = false) →
  strip chars s = s.
Proof.
  intros H. unfold strip.
  assert (lstrip chars s = s) as ->.
  { destruct s as [|c s']; [done|]. simpl. by rewrite (H c (mem_char_head c s')). }
  induction s as [|c s' IH]; [done|]. simpl.
  rewrite IH by (intros d Hd; by apply H, mem_char_tail).
  destruct s'; [|done]. by rewrite (H c (mem_char_head c "")).
Qed.

(** C5, as the code has it. The name and the e-mail address are those of
    the maintainer, or those of the author when the maintainer's name is
    empty. With a name and an address the result is [Name <address>],
    the address without angle brackets around it (so the address itself
    when it has none); with a name and no address the result is the name
    alone; without a name it is [Unknown]. *)
Theorem debian_maintainer_cases self :
  let m := package.metadata self in
  let name :=
    if truthy (pkginfo.maintainer m) then pkginfo.maintainer m
    else pkginfo.author m in
  let email :=
    if truthy (pkginfo.maintainer m) then pkginfo.maintainer_email m
    else pkginfo.author_email m in
  (∀ n e, name = Some n → email = Some e → n ≠ "" → e ≠ "" →
          package.debian_maintainer self
            = n +:+ " <" +:+ strip "<>" e +:+ ">") ∧
  (∀ n e, name = Some n → email = Some e → n ≠ "" → e ≠ "" →
          (∀ c, mem_char c e = true → mem_char c "<>" = false) →
          package.debian_maintainer self = n +:+ " <" +:+ e +:+ ">") ∧
  (∀ n, name = Some n → n ≠ "" → truthy email = false →
        package.debian_maintainer self = n) ∧
  (truthy name = false → package.debian_maintainer self = "Unknown").
Proof.
  intros m name email. unfold package.debian_maintainer. fold m.
  assert ((if negb (truthy (pkginfo.maintainer m))
           then (pkginfo.author m, pkginfo.author_email m)
           else (pkginfo.maintainer m, pkginfo.maintainer_email m))
          = (name, email)) as ->.
  { unfold name, email. by destruct (truthy (pkginfo.maintainer m)). }
  split; [|split; [|split]].
  - intros n e -> -> Hn He. by rewrite !truthy_Some.
  - intros n e -> -> Hn He Hplain. rewrite !truthy_Some by done.
    cbn [andb package.str_of default]. by rewrite strip_none.
  - intros n -> Hn He. by rewrite truthy_Some, He.
  - by intros ->.
Qed.

(** C5, as it is stated, fails: a maintainer with a name and no e-mail
    address is not replaced by [Unknown] (nor by the author). *)
Lemma maintainer_name_without_email :
  pkginfo.maintainer_email (package.metadata examples.name_only) = None ∧
  package.debian_maintainer examples.name_only = "Alice" ∧
  package.debian_maintainer examples.name_only ≠ "Unknown".
Proof. split; [reflexivity|]. split; [reflexivity|]. vm_compute. discriminate. Qed.

(** The author stands in for an absent maintainer, address included, and
    the angle brackets around the address are dropped. *)
Example maintainer_from_author :
  package.debian_maintainer examples.bracketed = "Bob <bob@example.org>".
Proof. reflexivity. Qed.

(** ** The architecture *)

Lemma collect_files root files (acc : list string) :
  foldl (λ shared_object_files filename,
           if endswith filename ".so"
           then (shared_object_files ++ [os_path.join root [filename]])%list
           else shared_object_files) acc files =
  (acc ++ ((λ filename, os_path.join root [filename])
             <$> filter (λ filename, endswith filename ".so" = true) files))%list.
Proof.
  revert acc. induction files as [|f files IH]; intros acc; simpl.
  - by rewrite app_nil_r.
  - rewrite IH, filter_cons. destruct (endswith f ".so") eqn:E.
    + rewrite decide_True by done. simpl. by rewrite <- app_assoc.
    + rewrite decide_False by congruence. done.
Qed.

Lemma collect_walk (walk : list (string * list string * list string))
    (acc : list string) :
  foldl (λ shared_object_files '(root, dirs, files),
           foldl (λ shared_object_files filename,
                    if endswith filename ".so"
                    then (shared_object_files
                            ++ [os_path.join root [filename]])%list
                    else shared_object_files)
                 shared_object_files files) acc walk =
  (acc ++ (walk ≫= (λ '(root, dirs, files),
             (λ filename, os_path.join root [filename])
               <$> filter (λ filename, endswith filename ".so" = true) files)))%list.
Proof.
  revert acc. induction walk as [|[[root dirs] files] walk IH]; intros acc.
  - cbn [foldl]. by rewrite app_nil_r.
  - cbn [foldl]. rewrite IH, collect_files. by rewrite <- app_assoc.
Qed.

(** The files found are the [.so] files of the tree, in the order of the
    walk. *)
Lemma find_shared_object_files_filter
    (walk : list (string * list string * list string)) :
  package.find_shared_object_files walk =
  walk ≫= (λ '(root, dirs, files),
             (λ filename, os_path.join root [filename])
               <$> filter (λ filename, endswith filename ".so" = true) files).
Proof. unfold package.find_shared_object_files. by rewrite collect_walk. Qed.

Lemma find_shared_object_files_nil
    (walk : list (string * list string * list string)) :
  package.find_shared_object_files walk = [] ↔
  ∀ root dirs files filename,
    (root, dirs, files) ∈ walk → filename ∈ files →
    endswith filename ".so" = false.
Proof.
  rewrite find_shared_object_files_filter. split.
  - intros Hnil root dirs files filename Hw Hf.
    destruct (endswith filename ".so") eqn:E; [|done]. exfalso.
    eapply (elem_of_nil (os_path.join root [filename])). rewrite <- Hnil at 2.
    apply list_elem_of_bind. exists (root, dirs, files).
    split; [|done]. cbn beta iota. apply list_elem_of_fmap. exists filename.
    split; [reflexivity|]. by apply list_elem_of_filter.
  - intros Hno.
    destruct (walk ≫= _) as [|pathname l] eqn:E; [done|]. exfalso.
    assert (pathname ∈ pathname :: l) as Hin by apply list_elem_of_here.
    rewrite <- E in Hin.
    apply list_elem_of_bind in Hin as ([[root dirs] files] & Hin & Hw).
    apply list_elem_of_fmap in Hin as (filename & _ & Hf).
    apply list_elem_of_filter in Hf as [Hso Hf].
    rewrite (Hno root dirs files filename Hw Hf) in Hso. discriminate.
Qed.

(** C9. The architecture is decided by the list of shared object files
    alone: [all] for the empty list, the converter's Debian architecture
    otherwise; and the list that [convert] passes is empty exactly when
    no file of the build directory ends in [.so]. *)
Theorem architecture_follows_shared_objects converter walk :
  package.determine_package_architecture converter [] = "all" ∧
  (∀ pathname rest,
     package.determine_package_architecture converter (pathname :: rest)
       = package.debian_architecture converter) ∧
  ((∀ root dirs files filename,
      (root, dirs, files) ∈ walk → filename ∈ files →
      endswith filename ".so" = false) →
   package.package_architecture converter walk = "all") ∧
  ((∃ root dirs files filename,
      (root, dirs, files) ∈ walk ∧ filename ∈ files ∧
      endswith filename ".so" = true) →
   package.package_architecture converter walk
     = package.debian_architecture converter).
Proof.
  split; [done|]. split; [done|]. unfold package.package_architecture. split.
  - intros Hno. apply find_shared_object_files_nil in Hno. by rewrite Hno.
  - intros (root & dirs & files & filename & Hw & Hf & Hso).
    destruct (package.find_shared_object_files walk) as [|p l] eqn:E; [|done].
    rewrite (proj1 (find_shared_object_files_nil walk) E root dirs files
               filename Hw Hf) in Hso. discriminate.
Qed.

Example architecture_of_pure_python_tree :
  package.package_architecture examples.converter examples.pure_python_tree
    = "all".
Proof. reflexivity. Qed.

Example architecture_of_compiled_tree :
  package.find_shared_object_files examples.compiled_tree
    = ["/tmp/build/usr/lib/python2.7/dist-packages/lxml/etree.so"] ∧
  package.package_architecture examples.converter examples.compiled_tree
    = "amd64".
Proof. split; reflexivity. Qed.

(** ** Namespaces *)

(** The inner loop adds the non-empty prefixes of the components, each
    after the components already seen. *)
Lemma elem_of_add_components components dotted_name namespaces t :
  t ∈ (foldl package.add_component (dotted_name, namespaces) components).2 ↔
  t ∈ namespaces ∨
  ∃ p, p ≠ [] ∧ p `prefix_of` components ∧ t = (dotted_name ++ p)%list.
Proof.
  revert dotted_name namespaces.
  induction components as [|c cs IH]; intros dotted_name namespaces.
  - simpl. split; [by left|]. intros [?|(p & Hp & Hpre & _)]; [done|].
    by apply prefix_nil_inv in Hpre.
  - cbn [foldl]. unfold package.add_component at 2. cbn [fst snd].
    rewrite IH, elem_of_union, elem_of_singleton. split.
    + intros [[->| ?]|(p & Hp & Hpre & ->)].
      * right. exists [c]. split; [done|]. split; [|done].
        by apply prefix_cons, prefix_nil.
      * by left.
      * right. exists (c :: p). split; [done|]. split; [by apply prefix_cons|].
        by rewrite <- app_assoc.
    + intros [?|(p & Hp & Hpre & ->)]; [by left; right|].
      destruct p as [|c' q]; [done|].
      apply prefix_cons_inv_1 in Hpre as Hc. subst c'.
      apply prefix_cons_inv_2 in Hpre.
      destruct q as [|c'' q'].
      * left. by left.
      * right. exists (c'' :: q'). split; [done|]. split; [done|].
        by rewrite <- app_assoc.
Qed.

Lemma elem_of_add_namespace_packages names namespaces t :
  t ∈ foldl package.add_namespace_package namespaces names ↔
  t ∈ namespaces ∨
  ∃ name, name ∈ names ∧ t ≠ [] ∧ t `prefix_of` split "." name.
Proof.
  revert namespaces. induction names as [|name names IH]; intros namespaces.
  - simpl. split; [by left|]. intros [?|(name & Hn & _)]; [done|].
    by apply elem_of_nil in Hn.
  - cbn [foldl]. rewrite IH. unfold package.add_namespace_package.
    rewrite elem_of_add_components. split.
    + intros [[?|(p & Hp & Hpre & ->)]|(name' & Hn & Ht & Hpre)].
      * by left.
      * right. exists name. split; [apply list_elem_of_here|]. done.
      * right. exists name'. split; [by apply list_elem_of_further|]. done.
    + intros [?|(name' & Hn & Ht & Hpre)]; [by left; left|].
      apply elem_of_cons in Hn as [->|Hn].
      * left. right. by exists t.
      * right. by exists name'.
Qed.

Lemma elem_of_namespaces self t :
  t ∈ package.namespaces self ↔
  ∃ name, name ∈ package.namespace_packages self ∧
          t ≠ [] ∧ t `prefix_of` split "." name.
Proof.
  unfold package.namespaces, sorted_by_len, package.namespaces_set.
  rewrite merge_sort_Permutation, elem_of_elements,
    elem_of_add_namespace_packages.
  split; [|by right]. intros [H|H]; [|done]. by apply elem_of_empty in H.
Qed.

(** Sorting by length does not depend on the order in which the set is
    iterated over when no two of its tuples have the same length. *)
Lemma sorted_by_len_Permutation {A} (l k : list (list A)) :
  (∀ s t, s ∈ l → t ∈ l → List.length s = List.length t → s = t) →
  l ≡ₚ k → sorted_by_len l = sorted_by_len k.
Proof.
  intros Hlen Hp. unfold sorted_by_len.
  apply (Sorted_unique_strong len_le); try apply Sorted_merge_sort, _.
  - intros s t Hs Ht H1 H2. apply Hlen.
    + by rewrite merge_sort_Permutation in Hs.
    + by rewrite merge_sort_Permutation, <- Hp in Ht.
    + unfold len_le in *. lia.
  - by rewrite !merge_sort_Permutation.
Qed.

(** C6. The namespaces are the non-empty prefixes of the split dotted
    names: a list without duplicates, sorted by increasing length and
    closed under non-empty prefixes, so [(a,)] is in it whenever [(a, b)]
    is; and for the single dotted name [zope.app.cache] it is
    [(zope,), (zope, app), (zope, app, cache)], whatever the order in
    which the set is iterated over. *)
Theorem namespaces_prefix_closed self :
  Sorted len_le (package.namespaces self) ∧
  NoDup (package.namespaces self) ∧
  (∀ t, t ∈ package.namespaces self ↔
        ∃ name, name ∈ package.namespace_packages self ∧
                t ≠ [] ∧ t `prefix_of` split "." name) ∧
  (∀ t x, t ≠ [] → (t ++ [x])%list ∈ package.namespaces self →
          t ∈ package.namespaces self) ∧
  (∀ a b, [a; b] ∈ package.namespaces self → [a] ∈ package.namespaces self) ∧
  (package.namespace_packages self = ["zope.app.cache"] →
   package.namespaces self
     = [["zope"]; ["zope"; "app"]; ["zope"; "app"; "cache"]] ∧
   ∀ order, order ≡ₚ elements (package.namespaces_set self) →
            sorted_by_len order
              = [["zope"]; ["zope"; "app"]; ["zope"; "app"; "cache"]]).
Proof.
  assert (∀ t x, t ≠ [] → (t ++ [x])%list ∈ package.namespaces self →
                 t ∈ package.namespaces self) as Hclosed.
  { intros t x Ht. rewrite !elem_of_namespaces.
    intros (name & Hn & _ & Hpre). exists name. split; [done|]. split; [done|].
    etrans; [|exact Hpre]. by apply prefix_app_r. }
  split; [apply Sorted_merge_sort, _|].
  split.
  { unfold package.namespaces, sorted_by_len.
    rewrite merge_sort_Permutation. apply NoDup_elements. }
  split; [apply elem_of_namespaces|].
  split; [exact Hclosed|].
  split; [intros a b; by apply (Hclosed [a] b)|].
  intros Hnames.
  assert (package.namespaces self
          = [["zope"]; ["zope"; "app"]; ["zope"; "app"; "cache"]]) as Hv.
  { unfold package.namespaces, package.namespaces_set. rewrite Hnames.
    vm_compute. reflexivity. }
  split; [exact Hv|].
  intros order Hp. rewrite <- Hv. unfold package.namespaces. symmetry.
  apply sorted_by_len_Permutation; [|done].
  assert (elements (package.namespaces_set self)
          ≡ₚ [["zope"]; ["zope"; "app"]; ["zope"; "app"; "cache"]]) as He.
  { rewrite <- Hv. unfold package.namespaces, sorted_by_len.
    by rewrite merge_sort_Permutation. }
  intros s t Hs Ht. rewrite He in Hs, Ht.
  list_cases; subst; (done || discriminate).
Qed.

Lemma namespaces_prefix_closed_witness :
  package.namespace_packages examples.zope_app_cache = ["zope.app.cache"] ∧
  package.namespaces examples.zope_app_cache
    = [["zope"]; ["zope"; "app"]; ["zope"; "app"; "cache"]].
Proof.
  split; [reflexivity|].
  exact (proj1 (proj2 (proj2 (proj2 (proj2 (proj2
           (namespaces_prefix_closed examples.zope_app_cache))))) eq_refl)).
Defined.

(** ** The metadata directory *)

(** C3, as the code has it. [find_egg_info_file] raises when two or more
    names match the pattern, returns the match when there is exactly one
    and returns [None], without raising, when there is none; in every
    case it leaves the file system as it was. *)
Theorem find_egg_info_file_outcomes {FileSystem}
    (glob : FileSystem → string → list string) self pattern fs :
  let matches :=
    glob fs (os_path.join (pip_accel.source_directory (package.requirement self))
               ["pip-egg-info"; "*.egg-info"; pattern]) in
  let result := package.find_egg_info_file FileSystem glob self pattern fs in
  result.2 = fs ∧
  ((2 ≤ List.length matches)%nat →
   result.1 = Raised (MultipleEggInfoDirectories
                        (pip_accel.project_name (package.requirement self))
                        (pip_accel.version (package.requirement self))
                        matches)) ∧
  (∀ m, matches = [m] → result.1 = Returned (Some m)) ∧
  (matches = [] → result.1 = Returned None).
Proof.
  intros matches result. unfold result, package.find_egg_info_file.
  fold matches. destruct matches as [|m [|m' l]]; simpl;
    (split; [reflexivity|]); (split; [|split]).
  - lia.
  - discriminate.
  - reflexivity.
  - lia.
  - by intros ? [= ->].
  - discriminate.
  - reflexivity.
  - discriminate.
  - discriminate.
Qed.

(** C3, as it is stated, fails for zero matches: nothing is raised, the
    result is [None]. *)
Lemma find_egg_info_file_without_match :
  examples.glob examples.no_egg_info
    "/tmp/pip-build/example/pip-egg-info/*.egg-info/" = [] ∧
  package.find_egg_info_file _ examples.glob examples.name_only ""
    examples.no_egg_info = (Returned None, examples.no_egg_info) ∧
  ¬ raises (package.find_egg_info_file _ examples.glob examples.name_only ""
              examples.no_egg_info).1.
Proof.
  split; [reflexivity|]. split; [reflexivity|]. intros [e He]. discriminate He.
Qed.

Example find_egg_info_file_with_two_matches :
  (package.find_egg_info_file _ examples.glob examples.name_only ""
     examples.two_egg_infos).1 =
  Raised (MultipleEggInfoDirectories "example" "1.0"
            [ "/tmp/pip-build/example/pip-egg-info/example.egg-info/";
              "/tmp/pip-build/example/pip-egg-info/other.egg-info/" ]).
Proof. vm_compute. reflexivity. Qed.

(** ** Control field overrides *)

Lemma lookup_section_is_Some l section :
  section ∈ l.*1 → is_Some (configparser.lookup_section l section).
Proof.
  induction l as [|[s d] l IH]; simpl.
  - intros H. by apply elem_of_nil in H.
  - intros H. destruct (String.eqb_spec s section) as [->|Hne]; [by eexists|].
    apply IH. apply elem_of_cons in H as [H|H]; [congruence|done].
Qed.

(** [items] does not raise for a section that [sections] lists. *)
Lemma items_of_section parser section :
  section ∈ configparser.sections parser →
  configparser.items parser section =
  Returned (configparser.section_overrides parser section).
Proof.
  intros Hs. unfold configparser.items, configparser.section_overrides.
  by destruct (lookup_section_is_Some _ _ Hs) as [d ->].
Qed.

Section overrides.

Context {FileSystem Deb822 : Type}.
Variable isfile : FileSystem → string → bool.
Variable read_config : FileSystem → string → outcome configparser.RawConfigParser.
Variable merge_control_fields : Deb822 → gmap string string → Deb822.
Variable package_names_match : string → string → bool.

Lemma apply_section_listed parser section (control_fields : Deb822) :
  section ∈ configparser.sections parser →
  package.apply_section Deb822 merge_control_fields parser control_fields
    section =
  Returned (merge_control_fields control_fields
              (configparser.section_overrides parser section)).
Proof.
  intros Hs. unfold package.apply_section, configparser.has_section.
  rewrite bool_decide_eq_true_2 by done.
  by rewrite items_of_section.
Qed.

Lemma apply_section_unlisted parser section (control_fields : Deb822) :
  section ∉ configparser.sections parser →
  package.apply_section Deb822 merge_control_fields parser control_fields
    section = Returned control_fields.
Proof.
  intros Hs. unfold package.apply_section, configparser.has_section.
  by rewrite bool_decide_eq_false_2.
Qed.

Lemma apply_sections parser (l : list string) (control_fields : Deb822) :
  (∀ section, section ∈ l → section ∈ configparser.sections parser) →
  for_each (package.apply_section Deb822 merge_control_fields parser) l
    control_fields =
  Returned (foldl (λ fields section,
                     merge_control_fields fields
                       (configparser.section_overrides parser section))
                  control_fields l).
Proof.
  revert control_fields. induction l as [|s l IH]; intros control_fields Hl.
  - reflexivity.
  - cbn [for_each foldl].
    rewrite apply_section_listed by (apply Hl, list_elem_of_here). simpl.
    apply IH. intros s' Hs'. by apply Hl, list_elem_of_further.
Qed.

(** C4, as the code has it. When [stdeb.cfg] is read, nothing is raised:
    the overrides of every section whose name matches the package are
    merged into the control fields, one section after the other in the
    order of the file, each with the values of [DEFAULT] beneath its own. *)
Theorem load_control_field_overrides_merges_every_match
    self (control_fields : Deb822) (fs : FileSystem) parser :
  isfile fs (os_path.join (pip_accel.source_directory (package.requirement self))
               ["stdeb.cfg"]) = true →
  read_config fs (os_path.join
                    (pip_accel.source_directory (package.requirement self))
                    ["stdeb.cfg"]) = Returned parser →
  "DEFAULT" ∉ configparser.sections parser →
  package.load_control_field_overrides FileSystem isfile read_config Deb822
    merge_control_fields package_names_match self control_fields fs =
  Returned
    (foldl (λ fields section,
              merge_control_fields fields
                (configparser.section_overrides parser section))
           control_fields
           (filter (λ section,
                      package_names_match section (package.python_name self)
                        = true)
                   (configparser.sections parser))).
Proof.
  intros Hfile Hread Hdefault. unfold package.load_control_field_overrides.
  rewrite Hfile, Hread. cbn [negb mbind outcome_bind for_each].
  rewrite apply_section_unlisted by done. cbn [mbind outcome_bind].
  apply apply_sections. intros section Hs.
  by apply list_elem_of_filter in Hs as [_ Hs].
Qed.

End overrides.

Lemma load_control_field_overrides_merges_every_match_witness :
  package.load_control_field_overrides unit (λ _ _, true)
    (λ _ _, Returned examples.stdeb_cfg) (list (gmap string string))
    examples.merge_log from_spec.package_names_match examples.my_package
    [] () =
  Returned [ {[ "depends" := "libfoo1"; "section" := "misc" ]};
             {[ "depends" := "libbar2"; "section" := "misc" ]} ].
Proof.
  rewrite (load_control_field_overrides_merges_every_match
             (λ _ _, true) (λ _ _, Returned examples.stdeb_cfg)
             examples.merge_log from_spec.package_names_match
             examples.my_package [] () examples.stdeb_cfg eq_refl eq_refl).
  - vm_compute. reflexivity.
  - vm_compute. intros H. by repeat (inversion H as [|? ? ? H']; clear H; rename H' into H).
Defined.

(** C4, as it is stated, fails: with two sections that both match the
    package nothing is raised, and the overrides of both are merged. *)
Lemma two_matching_sections_are_merged :
  from_spec.package_names_match "my_package"
    (package.python_name examples.my_package) = true ∧
  from_spec.package_names_match "My-Package"
    (package.python_name examples.my_package) = true ∧
  package.load_control_field_overrides unit (λ _ _, true)
    (λ _ _, Returned examples.stdeb_cfg) (list (gmap string string))
    examples.merge_log from_spec.package_names_match examples.my_package
    [] () =
  Returned [ {[ "depends" := "libfoo1"; "section" := "misc" ]};
             {[ "depends" := "libbar2"; "section" := "misc" ]} ] ∧
  ¬ raises (package.load_control_field_overrides unit (λ _ _, true)
              (λ _ _, Returned examples.stdeb_cfg) (list (gmap string string))
              examples.merge_log from_spec.package_names_match
              examples.my_package [] ()).
Proof.
  assert (package.load_control_field_overrides unit (λ _ _, true)
            (λ _ _, Returned examples.stdeb_cfg) (list (gmap string string))
            examples.merge_log from_spec.package_names_match
            examples.my_package [] () =
          Returned [ {[ "depends" := "libfoo1"; "section" := "misc" ]};
                     {[ "depends" := "libbar2"; "section" := "misc" ]} ]) as Hv
    by (vm_compute; reflexivity).
  split; [reflexivity|]. split; [reflexivity|]. split; [exact Hv|].
  rewrite Hv. intros [e He]. discriminate He.
Qed.

(** ** Patching the control file of the [stdeb] backend *)

Section patching.

Context {Deb822 : Type}.
Variable merge_control_fields : Deb822 → gmap string string → Deb822.
Variable patch_control_file : stdeb_backend.Package → Deb822 → Deb822.
Variable get_tagged_description : string.

#[local] Abbreviation patch_control :=
  (stdeb_backend.patch_control Deb822 merge_control_fields patch_control_file
     get_tagged_description).

(** With two paragraphs the block that rewrites the file changes the
    second one only. *)
Lemma patched_paragraphs_two package (p0 p1 : Deb822) :
  stdeb_backend.patched_paragraphs Deb822 merge_control_fields
    patch_control_file get_tagged_description package [p0; p1] =
  Returned
    [ p0;
      patch_control_file package
        (merge_control_fields p1
           {[ "Package" := stdeb_backend.debian_name package;
              "Description" := get_tagged_description;
              "Depends" := stdeb_backend.join_comma
                             (stdeb_backend.debian_dependencies package) ]}) ].
Proof. reflexivity. Qed.

(** C8. For a control file that is there, [patch_control] raises
    [BackendFailed] and leaves the file system as it was whenever the
    file does not hold exactly two paragraphs; with exactly two it
    returns, and the file then holds the first paragraph unchanged and
    the second one with the overrides merged in. *)
Theorem patch_control_two_paragraphs package
    (fs : gmap string (list Deb822)) paragraphs :
  fs !! os_path.join (stdeb_backend.directory package) ["debian"; "control"]
    = Some paragraphs →
  (List.length paragraphs ≠ 2%nat →
   patch_control package fs
     = (Raised (BackendFailed (stdeb_backend.name package)), fs)) ∧
  (∀ p0 p1, paragraphs = [p0; p1] →
     patch_control package fs =
     (Returned (),
      <[ os_path.join (stdeb_backend.directory package) ["debian"; "control"] :=
           [ p0;
             patch_control_file package
               (merge_control_fields p1
                  {[ "Package" := stdeb_backend.debian_name package;
                     "Description" := get_tagged_description;
                     "Depends" := stdeb_backend.join_comma
                                    (stdeb_backend.debian_dependencies
                                       package) ]}) ] ]> fs)).
Proof.
  intros Hfile. unfold stdeb_backend.patch_control. cbv zeta.
  rewrite Hfile. split.
  - intros Hlen. apply Nat.eqb_neq in Hlen. by rewrite Hlen.
  - intros p0 p1 ->. cbn [List.length Nat.eqb negb].
    by rewrite patched_paragraphs_two.
Qed.

End patching.

Lemma patch_control_two_paragraphs_witness :
  examples.debianized !! "/tmp/build/my-package/debian/control"
    = Some [examples.source_paragraph; examples.binary_paragraph] ∧
  stdeb_backend.patch_control (gmap string string) examples.override_wins
    (λ _ paragraph, paragraph) "Python package converted by py2deb"
    examples.stdeb_package examples.debianized =
  (Returned (),
   {[ "/tmp/build/my-package/debian/control" :=
        [ examples.source_paragraph;
          {[ "Package" := "python-my-package";
             "Architecture" := "all";
             "Description" := "Python package converted by py2deb";
             "Depends" := "python-six, python-foo (>= 1.0)" ]} ] ]}).
Proof.
  assert (examples.debianized
            !! os_path.join (stdeb_backend.directory examples.stdeb_package)
                 ["debian"; "control"]
          = Some [examples.source_paragraph; examples.binary_paragraph]) as H
    by (vm_compute; reflexivity).
  split; [exact H|].
  rewrite (proj2 (patch_control_two_paragraphs examples.override_wins
                    (λ _ paragraph, paragraph)
                    "Python package converted by py2deb"
                    examples.stdeb_package examples.debianized _ H)
             _ _ eq_refl).
  vm_compute. reflexivity.
Defined.

Example patch_control_one_paragraph :
  stdeb_backend.patch_control (gmap string string) examples.override_wins
    (λ _ paragraph, paragraph) "Python package converted by py2deb"
    examples.stdeb_package
    {[ "/tmp/build/my-package/debian/control" := [examples.source_paragraph] ]}
  = (Raised (BackendFailed "my-package"),
     {[ "/tmp/build/my-package/debian/control" := [examples.source_paragraph] ]}).
Proof. vm_compute. reflexivity. Qed.

(** * Further properties of the code *)

(** ** Strings *)

Lemma append_String c (a b : string) : String c a +:+ b = String c (a +:+ b).
Proof. reflexivity. Qed.

Lemma append_empty (b : string) : "" +:+ b = b.
Proof. reflexivity. Qed.

Lemma string_app_assoc (a b c : string) : (a +:+ b) +:+ c = a +:+ (b +:+ c).
Proof.
  induction a as [|x a IH]; [done|]. by rewrite !append_String, IH.
Qed.

Lemma string_app_length (a b : string) :
  String.length (a +:+ b) = (String.length a + String.length b)%nat.
Proof.
  induction a as [|x a IH]; [done|]. rewrite append_String. simpl. by rewrite IH.
Qed.

Lemma length_String_pred c s :
  (String.length (String c s) - 1)%nat = String.length s.
Proof. simpl. lia. Qed.

Lemma lstrip_head chars s :
  match lstrip chars s with
  | EmptyString => True
  | String c _ => mem_char c chars = false
  end.
Proof.
  induction s as [|c s IH]; simpl; [done|].
  destruct (mem_char c chars) eqn:E; [done|]. by rewrite E.
Qed.

Lemma lstrip_fixed chars s :
  match s with
  | EmptyString => True
  | String c _ => mem_char c chars = false
  end → lstrip chars s = s.
Proof. destruct s as [|c s]; simpl; [done|]. by intros ->. Qed.

Lemma rstrip_keeps_head chars c s :
  mem_char c chars = false →
  ∃ r, rstrip chars (String c s) = String c r.
Proof.
  intros Hc. simpl. destruct (rstrip chars s) as [|d r].
  - rewrite Hc. by eexists.
  - by eexists.
Qed.

Lemma rstrip_idemp chars s : rstrip chars (rstrip chars s) = rstrip chars s.
Proof.
  induction s as [|c s IH]; [done|]. simpl.
  destruct (rstrip chars s) as [|d r] eqn:E.
  - destruct (mem_char c chars) eqn:Hc; [done|]. simpl. by rewrite Hc.
  - change (rstrip chars (String c (String d r)))
      with (match rstrip chars (String d r) with
            | EmptyString =>
                if mem_char c chars then EmptyString else String c EmptyString
            | r0 => String c r0
            end).
    by rewrite IH.
Qed.

(** Stripping twice is stripping once. *)
Lemma strip_idemp chars s : strip chars (strip chars s) = strip chars s.
Proof.
  unfold strip. pose proof (lstrip_head chars s) as Hh.
  destruct (lstrip chars s) as [|c t] eqn:E; [done|].
  destruct (rstrip_keeps_head chars c t Hh) as [r Hr].
  rewrite Hr, lstrip_fixed by done. rewrite <- Hr. apply rstrip_idemp.
Qed.

Lemma prefix_append s t : prefix s (s +:+ t) = true.
Proof.
  induction s as [|c s IH]; [by destruct t|].
  rewrite append_String. simpl. destruct (ascii_dec c c); [done|congruence].
Qed.

Lemma endswith_cons c s suffix :
  endswith s suffix = true → endswith (String c s) suffix = true.
Proof.
  unfold endswith. intros H. apply andb_true_iff in H as [Hle Heq].
  apply Nat.leb_le in Hle. apply andb_true_iff. split.
  - apply Nat.leb_le. simpl. lia.
  - cbn [String.length].
    replace (S (String.length s) - String.length suffix)%nat
      with (S (String.length s - String.length suffix)) by lia.
    exact Heq.
Qed.

Lemma endswith_append a s suffix :
  endswith s suffix = true → endswith (a +:+ s) suffix = true.
Proof.
  intros H. induction a as [|c a IH]; [done|].
  rewrite append_String. by apply endswith_cons.
Qed.

(** ** Splitting and joining *)

Lemma join_cons sep x l :
  l ≠ [] → join sep (x :: l) = x +:+ sep +:+ join sep l.
Proof. by destruct l. Qed.

Lemma join_cons_head sep c l :
  l ≠ [] → join sep (cons_head c l) = String c (join sep l).
Proof. destruct l as [|h [|h' t]]; done. Qed.

Lemma split_skip_nonempty sep skip s : split_skip sep skip s ≠ [].
Proof.
  revert skip. induction s as [|c s IH]; intros skip; cbn [split_skip];
    [done|].
  destruct skip; [|apply IH].
  destruct (prefix sep (String c s)); [done|].
  by destruct (split_skip sep 0 s).
Qed.

Lemma prefix_split p s : prefix p s = true → ∃ rest, s = p +:+ rest.
Proof.
  revert s. induction p as [|a p IH]; intros s.
  - intros _. by exists s.
  - destruct s as [|b s]; [done|]. simpl.
    destruct (ascii_dec a b) as [->|]; [|done].
    intros H. destruct (IH s H) as [rest ->]. by exists rest.
Qed.

(** Passing over the rest of an occurrence of the separator. *)
Lemma split_skip_passes sep p rest :
  split_skip sep (String.length p) (p +:+ rest) = split_skip sep 0 rest.
Proof.
  induction p as [|a p IH]; [by destruct rest|].
  rewrite append_String. exact IH.
Qed.

(** [sep.join(s.split(sep))] is [s]. *)
Lemma join_split_str sep s : sep ≠ "" → join sep (split_str sep s) = s.
Proof.
  intros Hsep. unfold split_str.
  remember (String.length s) as n eqn:Hn.
  assert (String.length s ≤ n)%nat as Hle by lia. clear Hn.
  revert s Hle. induction n as [|n IH]; intros s Hle.
  - destruct s; [done|]. simpl in Hle. lia.
  - destruct s as [|c s]; [done|].
    cbn [split_skip]. destruct (prefix sep (String c s)) eqn:Hp.
    + destruct sep as [|a sep']; [done|].
      destruct (prefix_split _ _ Hp) as [rest Hrest].
      rewrite append_String in Hrest. injection Hrest as -> ->.
      rewrite length_String_pred, split_skip_passes.
      rewrite join_cons by apply split_skip_nonempty.
      rewrite IH.
      * by rewrite !append_String, append_empty.
      * simpl in Hle. rewrite string_app_length in Hle. lia.
    + rewrite join_cons_head by apply split_skip_nonempty.
      rewrite IH; [done|]. simpl in Hle. lia.
Qed.

(** ** More on the dependency mapper *)

Lemma for_each_Raised_inv {A S} (body : S → A → outcome S) l s e :
  for_each body l s = Raised e → ∃ x s', x ∈ l ∧ body s' x = Raised e.
Proof.
  revert s. induction l as [|x l IH]; intros s; simpl; [done|].
  destruct (body s x) as [s'|e'] eqn:E; simpl.
  - intros H. destruct (IH s' H) as (y & s'' & Hy & Hb).
    exists y, s''. split; [by apply list_elem_of_further|done].
  - intros [= ->]. exists x, s. split; [apply list_elem_of_here|done].
Qed.

Lemma prefix_refl s : prefix s s = true.
Proof.
  induction s as [|c s IH]; [done|]. simpl.
  destruct (ascii_dec c c); [done|congruence].
Qed.

(** Every entry of the table starts with the name. *)
Lemma relationship_prefix operator name version entry :
  from_spec.relationship operator name version = Some entry →
  prefix name entry = true.
Proof.
  unfold from_spec.relationship, from_spec.relationship_table. simpl.
  repeat (destruct (_ =? operator);
          [intros [= <-]; apply prefix_append|]).
  done.
Qed.

Section mapper_more.

Variable converter : package.PackageConverter.
Variable self : package.PackageToConvert.

Lemma constraint_entry_prefix r spec entry :
  constraint_entry converter self r spec = Some entry →
  prefix (debian_package_name converter r) entry = true.
Proof.
  unfold constraint_entry. destruct (_ =? "dev").
  - intros [= <-]. apply prefix_refl.
  - apply relationship_prefix.
Qed.

(** X1. Whenever the mapper returns, the list is sorted lexically and
    holds no entry twice. *)
Theorem debian_dependencies_sorted_without_duplicates deps :
  package.debian_dependencies converter self = Returned deps →
  Sorted str_le deps ∧ NoDup deps.
Proof.
  intros Hd. apply debian_dependencies_inv in Hd as [_ ->].
  split; [apply sorted_Sorted | apply sorted_set_NoDup].
Qed.

(** X3. Whenever the mapper returns, no requirement is dropped and no
    entry is made up: every requirement has an entry that starts with its
    transformed name, and every entry starts with the transformed name of
    a requirement. *)
Theorem debian_dependencies_keep_every_requirement deps :
  package.debian_dependencies converter self = Returned deps →
  (∀ r, r ∈ package.python_requirements self →
        ∃ entry, entry ∈ deps ∧
                 prefix (debian_package_name converter r) entry = true) ∧
  (∀ entry, entry ∈ deps →
        ∃ r, r ∈ package.python_requirements self ∧
             prefix (debian_package_name converter r) entry = true).
Proof.
  intros Hd. apply debian_dependencies_inv in Hd as [Hsome ->]. split.
  - intros r Hr.
    destruct (pkg_resources.specs r) as [|spec l] eqn:E.
    + exists (debian_package_name converter r). split; [|apply prefix_refl].
      apply elem_of_sorted_set, elem_of_dependency_entries.
      exists r. split; [done|]. by left.
    + assert (spec ∈ pkg_resources.specs r) as Hs
        by (rewrite E; apply list_elem_of_here).
      destruct (Hsome r spec Hr Hs) as [entry He]. exists entry. split.
      * apply elem_of_sorted_set, elem_of_dependency_entries.
        exists r. split; [done|]. right. by exists spec.
      * by apply (constraint_entry_prefix r spec).
  - intros entry He.
    apply elem_of_sorted_set, elem_of_dependency_entries in He
      as (r & Hr & [[_ ->]|(spec & Hs & He)]); exists r; (split; [done|]).
    + apply prefix_refl.
    + by apply (constraint_entry_prefix r spec).
Qed.

(** Over a given list of requirements the loop raises for one reason
    only: some constraint of some requirement has an operator outside the
    six of the table and a normalized version that is not [dev]. *)
Lemma debian_dependencies_Raised_inv e :
  package.debian_dependencies converter self = Raised e →
  ∃ r operator version,
    r ∈ package.python_requirements self ∧
    (operator, version) ∈ pkg_resources.specs r ∧
    debian_version converter self r version ≠ "dev" ∧
    (operator ∉ ["=="; "!="; "<"; ">"; "<="; ">="]) ∧
    e = ConversionSpecifierNotSupported operator (package.python_name self).
Proof.
  unfold package.debian_dependencies.
  destruct (for_each _ _ ∅) as [deps|e'] eqn:E; [done|].
  intros [= ->].
  apply for_each_Raised_inv in E as (r & deps & Hr & E).
  unfold package.add_requirement in E.
  destruct (pkg_resources.specs r) as [|spec0 l] eqn:Hspecs; [done|].
  apply for_each_Raised_inv in E as ([operator version] & deps' & Hs & E).
  fold (debian_package_name converter r) in E.
  rewrite add_constraint_entry in E.
  destruct (constraint_entry converter self r (operator, version))
    as [entry|] eqn:He; [done|].
  injection E as <-. exists r, operator, version.
  unfold constraint_entry in He. simpl in He.
  destruct (String.eqb_spec (debian_version converter self r version) "dev")
    as [|Hdev]; [done|].
  split; [done|]. split; [by rewrite Hspecs|]. split; [done|].
  split; [|reflexivity]. by apply relationship_None in He.
Qed.

End mapper_more.

Lemma debian_dependencies_sorted_without_duplicates_witness :
  package.debian_dependencies examples.converter examples.celery_reordered
  = Returned [ "python-billiard (<< 3.4)"; "python-billiard (>= 3.3.0.18)";
               "python-kombu (<< 3.1)"; "python-kombu (>= 3.0.23)";
               "python-pytz" ] ∧
  Sorted str_le [ "python-billiard (<< 3.4)"; "python-billiard (>= 3.3.0.18)";
                  "python-kombu (<< 3.1)"; "python-kombu (>= 3.0.23)";
                  "python-pytz" ].
Proof.
  assert (package.debian_dependencies examples.converter
            examples.celery_reordered
          = Returned [ "python-billiard (<< 3.4)";
                       "python-billiard (>= 3.3.0.18)";
                       "python-kombu (<< 3.1)"; "python-kombu (>= 3.0.23)";
                       "python-pytz" ]) as H by (vm_compute; reflexivity).
  split; [exact H|].
  exact (proj1 (debian_dependencies_sorted_without_duplicates
                  examples.converter examples.celery_reordered _ H)).
Defined.

Lemma debian_dependencies_keep_every_requirement_witness :
  package.debian_dependencies examples.converter examples.celery
  = Returned [ "python-billiard (<< 3.4)"; "python-billiard (>= 3.3.0.18)";
               "python-kombu (<< 3.1)"; "python-kombu (>= 3.0.23)";
               "python-pytz" ] ∧
  ∀ entry,
    entry ∈ [ "python-billiard (<< 3.4)"; "python-billiard (>= 3.3.0.18)";
              "python-kombu (<< 3.1)"; "python-kombu (>= 3.0.23)";
              "python-pytz" ] →
    ∃ r, r ∈ package.python_requirements examples.celery ∧
         prefix (debian_package_name examples.converter r) entry = true.
Proof.
  assert (package.debian_dependencies examples.converter examples.celery
          = Returned [ "python-billiard (<< 3.4)";
                       "python-billiard (>= 3.3.0.18)";
                       "python-kombu (<< 3.1)"; "python-kombu (>= 3.0.23)";
                       "python-pytz" ]) as H by (vm_compute; reflexivity).
  split; [exact H|].
  exact (proj2 (debian_dependencies_keep_every_requirement
                  examples.converter examples.celery _ H)).
Defined.

(** X2. The order of the requirements and their repetition do not matter:
    two packages with the same requirements up to order and repetition,
    whose versions the converter normalizes alike, get the same list
    whenever the mapper returns for one of them. *)
Theorem debian_dependencies_order_independent converter self self' deps :
  (∀ project version,
     package.transform_version converter self project version
     = package.transform_version converter self' project version) →
  (∀ r, r ∈ package.python_requirements self
        ↔ r ∈ package.python_requirements self') →
  package.debian_dependencies converter self = Returned deps →
  package.debian_dependencies converter self' = Returned deps.
Proof.
  intros Hversion Hsame Hd.
  apply debian_dependencies_inv in Hd as [Hsome ->].
  assert (∀ r spec, constraint_entry converter self' r spec
                    = constraint_entry converter self r spec) as Hentry.
  { intros r spec. unfold constraint_entry, debian_version.
    by rewrite Hversion. }
  rewrite debian_dependencies_returns.
  - do 3 f_equal. apply set_eq. intros entry.
    rewrite !elem_of_list_to_set, !elem_of_dependency_entries.
    split; intros (r & Hr & Hcase); exists r;
      (split; [by apply Hsame|]);
      (destruct Hcase as [?|(spec & Hs & He)]; [by left|right]);
      exists spec; (split; [done|]).
    + by rewrite <- Hentry.
    + by rewrite Hentry.
  - intros r spec Hr Hs. rewrite Hentry. apply Hsome; [by apply Hsame|done].
Qed.

Lemma debian_dependencies_order_independent_witness :
  package.debian_dependencies examples.converter examples.celery
  = Returned [ "python-billiard (<< 3.4)"; "python-billiard (>= 3.3.0.18)";
               "python-kombu (<< 3.1)"; "python-kombu (>= 3.0.23)";
               "python-pytz" ] ∧
  package.debian_dependencies examples.converter examples.celery_reordered
  = Returned [ "python-billiard (<< 3.4)"; "python-billiard (>= 3.3.0.18)";
               "python-kombu (<< 3.1)"; "python-kombu (>= 3.0.23)";
               "python-pytz" ].
Proof.
  assert (package.debian_dependencies examples.converter examples.celery
          = Returned [ "python-billiard (<< 3.4)";
                       "python-billiard (>= 3.3.0.18)";
                       "python-kombu (<< 3.1)"; "python-kombu (>= 3.0.23)";
                       "python-pytz" ]) as H by (vm_compute; reflexivity).
  split; [exact H|].
  apply (debian_dependencies_order_independent examples.converter
           examples.celery examples.celery_reordered).
  - intros project version. reflexivity.
  - intros r. simpl. rewrite !elem_of_cons. tauto.
  - exact H.
Defined.

(** ** More on namespaces *)

Lemma StronglySorted_lookup_lt {A} (R : relation A) l i j x y :
  StronglySorted R l → (i < j)%nat → l !! i = Some x → l !! j = Some y →
  R x y.
Proof.
  intros Hs. revert i j. induction Hs as [|a l Hs IH Hall]; intros i j Hij.
  - done.
  - destruct i as [|i], j as [|j]; try lia; simpl.
    + intros [= <-] Hy. rewrite Forall_forall in Hall.
      apply Hall. by apply list_elem_of_lookup_2 in Hy.
    + apply IH. lia.
Qed.

(** X5. In the list of namespaces a shorter tuple stands before a longer
    one; so every namespace stands after all of its parents, which are in
    the list too. *)
Theorem namespaces_parents_first self i u :
  package.namespaces self !! i = Some u →
  (∀ j t, package.namespaces self !! j = Some t →
          (List.length t < List.length u)%nat → (j < i)%nat) ∧
  (∀ t, t ≠ [] → t `prefix_of` u → t ≠ u →
        ∃ j, (j < i)%nat ∧ package.namespaces self !! j = Some t).
Proof.
  intros Hu.
  assert (StronglySorted len_le (package.namespaces self)) as Hs.
  { apply (Sorted_StronglySorted _), Sorted_merge_sort, _. }
  assert (∀ j t, package.namespaces self !! j = Some t →
                 (List.length t < List.length u)%nat → (j < i)%nat) as Horder.
  { intros j t Ht Hlen. destruct (decide (j < i)%nat) as [|Hge]; [done|].
    exfalso. destruct (decide (j = i)) as [->|Hne].
    - rewrite Hu in Ht. injection Ht as ->. lia.
    - assert (len_le u t) as Hle
        by (apply (StronglySorted_lookup_lt _ _ i j _ _ Hs); [lia|done..]).
      unfold len_le in Hle. lia. }
  split; [exact Horder|].
  intros t Ht Hpre Hne.
  assert (t ∈ package.namespaces self) as Hin.
  { apply list_elem_of_lookup_2 in Hu.
    apply elem_of_namespaces in Hu as (name & Hn & _ & Hpu).
    apply elem_of_namespaces. exists name. split; [done|]. split; [done|].
    by etrans. }
  apply list_elem_of_lookup_1 in Hin as [j Hj]. exists j. split; [|done].
  apply (Horder j t Hj). pose proof (prefix_length _ _ Hpre) as Hle.
  destruct (decide (List.length u ≤ List.length t)%nat) as [Hge|]; [|lia].
  by destruct (Hne (prefix_length_eq _ _ Hpre Hge)).
Qed.

Lemma namespaces_parents_first_witness :
  package.namespaces examples.zope_app_cache !! 2%nat
    = Some ["zope"; "app"; "cache"] ∧
  ∃ j, (j < 2)%nat ∧
       package.namespaces examples.zope_app_cache !! j = Some ["zope"].
Proof.
  assert (package.namespaces examples.zope_app_cache !! 2%nat
          = Some ["zope"; "app"; "cache"]) as H by (vm_compute; reflexivity).
  split; [exact H|].
  apply (proj2 (namespaces_parents_first examples.zope_app_cache 2
                  ["zope"; "app"; "cache"] H) ["zope"]).
  - discriminate.
  - by exists ["app"; "cache"].
  - discriminate.
Defined.

(** ** Reading the unpacked source distribution *)

Lemma strip_ws_idemp whitespace s :
  strip_ws whitespace (strip_ws whitespace s) = strip_ws whitespace s.
Proof. apply strip_idemp. Qed.

Section revision.

Context {FileSystem : Type}.
Variable isfile : FileSystem → string → bool.
Variable readlines : FileSystem → string → outcome (list string).
Variable whitespace : string.

Lemma find_node_first before line after :
  (∀ l, l ∈ before → strip_ws whitespace (partition ":" l).1.1 ≠ "node") →
  strip_ws whitespace (partition ":" line).1.1 = "node" →
  package.find_node whitespace (before ++ line :: after)
  = Some (strip_ws whitespace (partition ":" line).2).
Proof.
  intros Hbefore Hline. induction before as [|l before IH]; simpl.
  - destruct (partition ":" line) as [[name found] value]. simpl in *.
    by rewrite Hline.
  - pose proof (Hbefore l (list_elem_of_here _ _)) as Hl.
    destruct (partition ":" l) as [[name found] value]. simpl in Hl.
    apply String.eqb_neq in Hl as ->. apply IH.
    intros l' Hl'. by apply Hbefore, list_elem_of_further.
Qed.

Lemma find_node_None lines :
  package.find_node whitespace lines = None ↔
  ∀ l, l ∈ lines → strip_ws whitespace (partition ":" l).1.1 ≠ "node".
Proof.
  induction lines as [|l lines IH]; simpl.
  - split; [|done]. intros _ l Hl. by apply elem_of_nil in Hl.
  - destruct (partition ":" l) as [[name found] value] eqn:E.
    destruct (String.eqb_spec (strip_ws whitespace name) "node") as [Heq|Hne].
    + split; [done|]. intros H. exfalso.
      apply (H l (list_elem_of_here _ _)). by rewrite E.
    + rewrite IH. split.
      * intros H l' Hl'. apply elem_of_cons in Hl' as [->|Hl'];
          [by rewrite E|by apply H].
      * intros H l' Hl'. by apply H, list_elem_of_further.
Qed.

Lemma find_node_stripped lines revision :
  package.find_node whitespace lines = Some revision →
  strip_ws whitespace revision = revision.
Proof.
  induction lines as [|l lines IH]; simpl; [done|].
  destruct (partition ":" l) as [[name found] value].
  destruct (strip_ws whitespace name =? "node"); [|done].
  intros [= <-]. apply strip_ws_idemp.
Qed.


End revision.


Lemma add_dotted_names whitespace lines (acc : list string) :
  foldl (package.add_dotted_name whitespace) acc lines =
  (acc ++ filter (λ name, name ≠ "") (strip_ws whitespace <$> lines))%list.
Proof.
  revert acc. induction lines as [|l lines IH]; intros acc; simpl.
  - by rewrite app_nil_r.
  - rewrite IH, filter_cons. unfold package.add_dotted_name.
    destruct (String.eqb_spec (strip_ws whitespace l) "") as [Heq|Hne]; simpl.
    + by rewrite decide_False by (by intros ?).
    + rewrite decide_True by done. by rewrite <- app_assoc.
Qed.

Section namespace_file.

Context {FileSystem : Type}.
Variable glob : FileSystem → string → list string.
Variable readlines : FileSystem → string → outcome (list string).
Variable whitespace : string.


End namespace_file.


(** ** The requirements of [requires.txt] *)

Lemma for_each_append {A S} (body : S → A → outcome S) l k s :
  for_each body (l ++ k) s = (s' ← for_each body l s; for_each body k s').
Proof.
  revert s. induction l as [|x l IH]; intros s; simpl; [done|].
  destruct (body s x); simpl; [apply IH | done].
Qed.

Section requires_file.

Context {FileSystem : Type}.
Variable glob : FileSystem → string → list string.
Variable readlines : FileSystem → string → outcome (list string).
Variable whitespace : string.
Variable str_lower : string → string.
Variable parse : string → outcome pkg_resources.Requirement.
Variable requires : list string → outcome (list pkg_resources.Requirement).

Lemma add_requires_line_header selected current requirements line :
  prefix "[" (strip_ws whitespace line) = true →
  package.add_requires_line whitespace str_lower parse selected
    (current, requirements) line
  = Returned (Some (str_lower (strip "[]" (strip_ws whitespace line))),
              requirements).
Proof.
  intros H. unfold package.add_requires_line. cbv beta match zeta.
  by rewrite H.
Qed.

Lemma add_requires_line_unselected selected extra requirements line :
  prefix "[" (strip_ws whitespace line) = false → extra ∉ selected →
  package.add_requires_line whitespace str_lower parse selected
    (Some extra, requirements) line
  = Returned (Some extra, requirements).
Proof.
  intros H Hextra. unfold package.add_requires_line. cbv beta match zeta.
  rewrite H, bool_decide_eq_false_2 by done. by rewrite andb_false_r.
Qed.

(** The lines under the header of an extra that was not selected leave
    the requirements as they are. *)
Lemma unselected_section_skipped selected extra body requirements :
  extra ∉ selected →
  Forall (λ l, prefix "[" (strip_ws whitespace l) = false) body →
  for_each (package.add_requires_line whitespace str_lower parse selected)
    body (Some extra, requirements)
  = Returned (Some extra, requirements).
Proof.
  intros Hextra Hbody. induction Hbody as [|l body Hl Hbody IH]; [done|].
  cbn [for_each]. rewrite add_requires_line_unselected by done.
  cbn [mbind outcome_bind]. exact IH.
Qed.


End requires_file.


(** ** Dependencies on system libraries *)

Lemma drop_chars_append p rest :
  drop_chars (String.length p) (p +:+ rest) = rest.
Proof.
  induction p as [|a p IH]; [by destruct rest|].
  rewrite append_String. exact IH.
Qed.

Lemma split_nonempty sep s : split sep s ≠ [].
Proof.
  induction s as [|c s IH]; simpl; [done|].
  destruct (Ascii.eqb c sep); [done|]. by destruct (split sep s).
Qed.

Section shlibdeps.

Variable execute : list string → outcome string.
Variable whitespace : string.


End shlibdeps.


(** ** Maintainer scripts *)

Lemma join_snoc sep l x :
  l ≠ [] → join sep (l ++ [x]) = join sep l +:+ sep +:+ x.
Proof.
  induction l as [|y l IH]; [done|]. intros _.
  destruct l as [|z l]; [reflexivity|].
  change (((y :: z :: l) ++ [x])%list) with (y :: ((z :: l) ++ [x]))%list.
  rewrite join_cons by (simpl; discriminate).
  rewrite IH by done. rewrite (join_cons sep y (z :: l)) by done.
  by rewrite !string_app_assoc.
Qed.

(** A text between a first and a last block survives being split at the
    blank lines and joined with them again. *)
Lemma script_text first contents last :
  join (LF +:+ LF) ((first :: split_str (LF +:+ LF) contents) ++ [last])
    +:+ LF
  = first +:+ LF +:+ LF +:+ contents +:+ LF +:+ LF +:+ last +:+ LF.
Proof.
  rewrite join_snoc by done.
  rewrite join_cons by (unfold split_str; apply split_skip_nonempty).
  rewrite join_split_str by (intros H; vm_compute in H; discriminate H).
  by rewrite !string_app_assoc.
Qed.

Section scripts.

Context {Value : Type}.
Variable repr : Value → string.
Variable hooks_script : string.

(** X10. With [hooks.py] readable, the maintainer script that is written
    holds the line of the interpreter, a blank line, the text of
    [hooks.py] as it is, a blank line and the call of the function with
    its arguments, and ends with a line feed; it gets the mode [0755], and
    no other file changes. *)
Theorem generate_maintainer_script_embeds_hooks
    filename python_executable function (arguments : list (string * Value))
    (fs : gmap string (string * nat)) contents mode :
  fs !! hooks_script = Some (contents, mode) →
  package.generate_maintainer_script Value repr hooks_script filename
    python_executable function arguments fs
  = (Returned (),
     <[ filename :=
          ("#!" +:+ python_executable +:+ LF +:+ LF
             +:+ contents +:+ LF +:+ LF
             +:+ function +:+ "("
             +:+ join ", " ((λ '(k, v), k +:+ "=" +:+ repr v) <$> arguments)
             +:+ ")" +:+ LF,
           package.mode_755) ]> fs).
Proof.
  intros Hhooks. unfold package.generate_maintainer_script.
  rewrite Hhooks. cbv beta iota zeta.
  rewrite script_text. by rewrite !string_app_assoc.
Qed.

End scripts.

Lemma generate_maintainer_script_embeds_hooks_witness :
  package.generate_maintainer_script string examples.quoted examples.hooks_py
    "/tmp/build/DEBIAN/prerm" "/usr/bin/python" "cleanup_bytecode_files"
    [("package_name", "python-example")] examples.installed
  = (Returned (),
     <[ "/tmp/build/DEBIAN/prerm" :=
          ("#!/usr/bin/python" +:+ LF +:+ LF
             +:+ examples.hooks_text +:+ LF +:+ LF
             +:+ "cleanup_bytecode_files(package_name='python-example')"
             +:+ LF,
           493%nat) ]> examples.installed).
Proof.
  rewrite (generate_maintainer_script_embeds_hooks examples.quoted
             examples.hooks_py "/tmp/build/DEBIAN/prerm" "/usr/bin/python"
             "cleanup_bytecode_files" [("package_name", "python-example")]
             examples.installed examples.hooks_text 292%nat).
  - vm_compute. reflexivity.
  - vm_compute. reflexivity.
Defined.

(** ** More on the maintainer *)

Lemma truthy_inv o : truthy o = true → ∃ c s, o = Some (String c s).
Proof.
  destruct o as [[|c s]|]; intros H.
  - vm_compute in H. discriminate H.
  - by exists c, s.
  - discriminate H.
Qed.

(** X11. The maintainer of the Debian package is never the empty string,
    whatever the metadata holds. *)
Theorem debian_maintainer_not_empty self : package.debian_maintainer self ≠ "".
Proof.
  unfold package.debian_maintainer. cbv zeta.
  destruct (negb (truthy (pkginfo.maintainer (package.metadata self))));
    cbv beta iota.
  - destruct (truthy (pkginfo.author (package.metadata self))) eqn:Hname.
    + apply truthy_inv in Hname as (c & s & ->).
      destruct (truthy (pkginfo.author_email (package.metadata self)));
        cbn [andb package.str_of default]; [rewrite append_String|]; discriminate.
    + cbn [andb]. discriminate.
  - destruct (truthy (pkginfo.maintainer (package.metadata self))) eqn:Hname.
    + apply truthy_inv in Hname as (c & s & ->).
      destruct (truthy (pkginfo.maintainer_email (package.metadata self)));
        cbn [andb package.str_of default]; [rewrite append_String|]; discriminate.
    + cbn [andb]. discriminate.
Qed.

(** ** More on the control field overrides *)

Lemma filter_none {A} (P : A → Prop) `{∀ x, Decision (P x)} (l : list A) :
  (∀ x, x ∈ l → ¬ P x) → filter P l = [].
Proof.
  induction l as [|x l IH]; intros Hl; [done|].
  rewrite filter_cons, decide_False by apply Hl, list_elem_of_here.
  apply IH. intros y Hy. by apply Hl, list_elem_of_further.
Qed.

Section overrides_more.

Context {FileSystem Deb822 : Type}.
Variable isfile : FileSystem → string → bool.
Variable read_config : FileSystem → string → outcome configparser.RawConfigParser.
Variable merge_control_fields : Deb822 → gmap string string → Deb822.
Variable package_names_match : string → string → bool.

(** X12. The values of the [DEFAULT] section of [stdeb.cfg] are not
    applied on their own: when no section of the file matches the name of
    the package, the control fields are returned as they were given and
    nothing is merged into them. *)
Theorem default_section_alone_is_not_applied
    self (control_fields : Deb822) (fs : FileSystem) parser :
  isfile fs (os_path.join (pip_accel.source_directory (package.requirement self))
               ["stdeb.cfg"]) = true →
  read_config fs (os_path.join
                    (pip_accel.source_directory (package.requirement self))
                    ["stdeb.cfg"]) = Returned parser →
  "DEFAULT" ∉ configparser.sections parser →
  (∀ section, section ∈ configparser.sections parser →
     package_names_match section (package.python_name self) = false) →
  package.load_control_field_overrides FileSystem isfile read_config Deb822
    merge_control_fields package_names_match self control_fields fs
  = Returned control_fields.
Proof.
  intros Hfile Hread Hdefault Hnone.
  unfold package.load_control_field_overrides.
  rewrite Hfile, Hread. cbn [negb mbind outcome_bind for_each].
  rewrite apply_section_unlisted by done. cbn [mbind outcome_bind].
  rewrite filter_none; [done|].
  intros section Hs Hm. by rewrite (Hnone section Hs) in Hm.
Qed.

End overrides_more.

Lemma default_section_alone_is_not_applied_witness :
  package.load_control_field_overrides unit (λ _ _, true)
    (λ _ _, Returned examples.other_cfg) (list (gmap string string))
    examples.merge_log from_spec.package_names_match examples.my_package
    [] ()
  = Returned [].
Proof.
  apply (default_section_alone_is_not_applied (λ _ _, true)
           (λ _ _, Returned examples.other_cfg) examples.merge_log
           from_spec.package_names_match examples.my_package [] ()
           examples.other_cfg eq_refl eq_refl).
  - vm_compute. intros H. apply list_elem_of_singleton in H. discriminate H.
  - intros section Hs. vm_compute in Hs.
    apply list_elem_of_singleton in Hs as ->. vm_compute. reflexivity.
Defined.

(** ** More on the shared object files *)

Lemma endswith_join root filename suffix :
  endswith filename suffix = true →
  endswith (os_path.join root [filename]) suffix = true.
Proof.
  intros H. unfold os_path.join. cbn [foldl]. unfold os_path.join2.
  destruct (prefix "/" filename); [done|].
  destruct ((root =? "") || endswith root "/").
  - by apply endswith_append.
  - by do 2 apply endswith_append.
Qed.

(** X15. The path names that [find_shared_object_files] returns are those
    of the files of the walk whose name ends in [.so], each joined to its
    directory, and every one of them ends in [.so] itself. *)
Theorem shared_object_files_end_in_so
    (walk : list (string * list string * list string)) :
  (∀ pathname,
     pathname ∈ package.find_shared_object_files walk ↔
     ∃ root dirs files filename,
       (root, dirs, files) ∈ walk ∧ filename ∈ files ∧
       endswith filename ".so" = true ∧
       pathname = os_path.join root [filename]) ∧
  Forall (λ pathname, endswith pathname ".so" = true)
    (package.find_shared_object_files walk).
Proof.
  assert (∀ pathname,
            pathname ∈ package.find_shared_object_files walk ↔
            ∃ root dirs files filename,
              (root, dirs, files) ∈ walk ∧ filename ∈ files ∧
              endswith filename ".so" = true ∧
              pathname = os_path.join root [filename]) as Hin.
  { intros pathname. rewrite find_shared_object_files_filter. split.
    - intros H.
      apply list_elem_of_bind in H as ([[root dirs] files] & H & Hw).
      apply list_elem_of_fmap in H as (filename & -> & Hf).
      apply list_elem_of_filter in Hf as [Hso Hf].
      by exists root, dirs, files, filename.
    - intros (root & dirs & files & filename & Hw & Hf & Hso & ->).
      apply list_elem_of_bind. exists (root, dirs, files).
      split; [|done]. cbn beta iota. apply list_elem_of_fmap.
      exists filename. split; [reflexivity|]. by apply list_elem_of_filter. }
  split; [exact Hin|].
  apply Forall_forall. intros pathname Hp.
  apply Hin in Hp as (root & dirs & files & filename & _ & _ & Hso & ->).
  by apply endswith_join.
Qed.

(** ** More on the requirements of [requires.txt] *)

Section requires_file_more.

Context {FileSystem : Type}.
Variable glob : FileSystem → string → list string.
Variable readlines : FileSystem → string → outcome (list string).
Variable whitespace : string.
Variable str_lower : string → string.
Variable parse : string → outcome pkg_resources.Requirement.
Variable requires : list string → outcome (list pkg_resources.Requirement).

(** Parsing every non-empty line, after the white space around it is
    removed, in the order of the lines. *)
#[local] Abbreviation parse_lines lines requirements :=
  (for_each (λ parsed_so_far line,
               parsed ← parse line; Returned (parsed_so_far ++ [parsed])%list)
            (filter (λ line, line ≠ "") (strip_ws whitespace <$> lines))
            requirements).

Lemma add_requires_line_selected selected current requirements line :
  prefix "[" (strip_ws whitespace line) = false →
  match current with None => True | Some extra => extra ∈ selected end →
  package.add_requires_line whitespace str_lower parse selected
    (current, requirements) line
  = if decide (strip_ws whitespace line = "")
    then Returned (current, requirements)
    else parsed ← parse (strip_ws whitespace line);
         Returned (current, (requirements ++ [parsed])%list).
Proof.
  intros H Hcurrent. unfold package.add_requires_line.
  cbv beta match zeta. rewrite H.
  destruct (String.eqb_spec (strip_ws whitespace line) "") as [Heq|Hne];
    cbn [negb andb].
  - by rewrite decide_True.
  - rewrite decide_False by done.
    destruct current; [by rewrite bool_decide_eq_true_2|done].
Qed.

(** Lines outside of any section, or in the section of a selected extra,
    are all parsed. *)
Lemma selected_lines_parsed selected current body requirements :
  match current with None => True | Some extra => extra ∈ selected end →
  Forall (λ l, prefix "[" (strip_ws whitespace l) = false) body →
  for_each (package.add_requires_line whitespace str_lower parse selected)
    body (current, requirements)
  = (parsed ← parse_lines body requirements; Returned (current, parsed)).
Proof.
  intros Hcurrent Hbody. revert requirements.
  induction Hbody as [|l body Hl Hbody IH]; intros requirements; [done|].
  cbn [for_each]. rewrite add_requires_line_selected by done.
  rewrite fmap_cons, filter_cons.
  destruct (decide (strip_ws whitespace l = "")) as [Heq|Hne].
  - rewrite decide_False by (by intros ?). cbn [mbind outcome_bind]. apply IH.
  - rewrite decide_True by done. cbn [for_each].
    destruct (parse (strip_ws whitespace l)); cbn [mbind outcome_bind];
      [apply IH|done].
Qed.


(** The reasons for which the computation of [python_requirements]
    raises. *)
Lemma add_requires_line_Raised_inv selected st line e :
  package.add_requires_line whitespace str_lower parse selected st line
    = Raised e →
  parse (strip_ws whitespace line) = Raised e.
Proof.
  destruct st as [current requirements]. unfold package.add_requires_line.
  cbv beta match zeta.
  destruct (prefix "[" (strip_ws whitespace line)); [done|].
  destruct (negb _ && _); [|done].
  destruct (parse (strip_ws whitespace line)); cbn [mbind outcome_bind];
    [done|by intros [= ->]].
Qed.

Lemma load_python_requirements_Raised_inv self extras (fs : FileSystem) e :
  package.load_python_requirements FileSystem glob readlines whitespace
    str_lower parse requires self extras fs = Raised e →
  (∃ e0, requires extras = Raised e0) ∧
  ((package.find_egg_info_file FileSystem glob self "requires.txt" fs).1
     = Raised e ∨
   ∃ filename,
     (package.find_egg_info_file FileSystem glob self "requires.txt" fs).1
       = Returned (Some filename) ∧
     (readlines fs filename = Raised e ∨
      ∃ lines line,
        readlines fs filename = Returned lines ∧ line ∈ lines ∧
        parse (strip_ws whitespace line) = Raised e)).
Proof.
  unfold package.load_python_requirements.
  destruct (requires extras) as [requirements|e0]; [done|].
  intros H. split; [by exists e0|].
  destruct (package.find_egg_info_file FileSystem glob self "requires.txt"
              fs).1 as [[filename|]|e1]; cbn [mbind outcome_bind] in H.
  - right. exists filename. split; [done|].
    destruct (truthy (Some filename)); [|done].
    destruct (readlines fs filename) as [lines|e1];
      cbn [mbind outcome_bind] in H.
    + right. exists lines.
      destruct (for_each _ lines (None, [])) as [st|e1] eqn:E;
        cbn [mbind outcome_bind] in H; [done|].
      injection H as ->.
      apply for_each_Raised_inv in E as (line & st & Hline & E).
      exists line. split; [done|]. split; [done|].
      by apply add_requires_line_Raised_inv in E.
    + left. by injection H as ->.
  - done.
  - left. by injection H as ->.
Qed.


End requires_file_more.


